(** * The submission screen of [app/(tabs)/index.tsx]

    A shallow embedding of the [HomeScreen] component: its React state,
    the three asynchronous handlers [fetchSubmissions], [pickImage] and
    [handleSubmit], and the JavaScript string operations they rely on.

    The remote services (object store, database), the device picker, the
    local [fetch] and the clock are collaborators outside the component.
    They are gathered in a record [Env] of answers; every call the
    component makes to one of them is written to a log together with the
    answer it got, so that statements can speak about which calls were
    made, with which arguments, and in which order. *)

From Stdlib Require Import List ZArith NArith Bool String Ascii Lia.
From Stdlib Require Import DecimalString DecimalPos DecimalZ.
Import ListNotations.

Local Open Scope Z_scope.

(* ===================================================================== *)
(** ** JavaScript strings *)
(* ===================================================================== *)

Module Js.

(** A JavaScript string is a sequence of UTF-16 code units. *)
Definition char16 := N.
Definition jsstring := list char16.

(** String literals of the source: every literal in the file is ASCII. *)
Definition lit (s : string) : jsstring :=
  map N_of_ascii (list_ascii_of_string s).

(** [ToBoolean] on a string: the empty string is the only falsy one. *)
Definition truthy (s : jsstring) : bool :=
  match s with [] => false | _ :: _ => true end.

(** The code units removed by [String.prototype.trim]: ECMAScript
    WhiteSpace (TAB, VT, FF, ZWNBSP and the Unicode space separators)
    and LineTerminator (LF, CR, LS, PS). *)
Definition isWhiteSpace (c : char16) : bool :=
  ((c =? 0x0009) || (c =? 0x000B) || (c =? 0x000C) || (c =? 0xFEFF)
   || (c =? 0x0020) || (c =? 0x00A0) || (c =? 0x1680)
   || ((0x2000 <=? c) && (c <=? 0x200A))
   || (c =? 0x202F) || (c =? 0x205F) || (c =? 0x3000)
   || (c =? 0x000A) || (c =? 0x000D) || (c =? 0x2028) || (c =? 0x2029))%N.

Fixpoint trimStart (s : jsstring) : jsstring :=
  match s with
  | [] => []
  | c :: rest => if isWhiteSpace c then trimStart rest else s
  end.

Definition trimEnd (s : jsstring) : jsstring :=
  rev (trimStart (rev s)).

(** [s.trim()] *)
Definition trim (s : jsstring) : jsstring :=
  trimEnd (trimStart s).

(** [s.split(sep)] for a separator of one code unit. The result always
    has at least one element; the empty string splits to [[""]]. *)
Fixpoint split (sep : char16) (s : jsstring) : list jsstring :=
  match s with
  | [] => [[]]
  | c :: rest =>
      if (c =? sep)%N then [] :: split sep rest
      else match split sep rest with
           | [] => [[c]]
           | piece :: pieces => (c :: piece) :: pieces
           end
  end.

(** [arr.pop()] as an expression: the last element, [undefined] on an
    empty array. *)
Fixpoint pop (arr : list jsstring) : option jsstring :=
  match arr with
  | [] => None
  | [x] => Some x
  | _ :: rest => pop rest
  end.

(** [Number::toString] on an integral number below 10^21 in magnitude:
    plain decimal digits, with a leading minus sign when negative. Both
    [Date.now()] and an HTTP status are in that range. *)
Definition ofNumber (n : Z) : jsstring :=
  lit (NilZero.string_of_int (Z.to_int n)).

(** A value spliced into a template literal: a string is spliced as it
    is, [undefined] as the nine letters of its name. *)
Definition splice (v : option jsstring) : jsstring :=
  match v with
  | Some s => s
  | None => lit "undefined"
  end.

(** [s.lastIndexOf(c)]: the index of the last occurrence, [-1] if none. *)
Fixpoint lastIndexOf_from (i : Z) (found : Z) (c : char16) (s : jsstring) : Z :=
  match s with
  | [] => found
  | d :: rest =>
      lastIndexOf_from (i + 1) (if (d =? c)%N then i else found) c rest
  end.

Definition lastIndexOf (c : char16) (s : jsstring) : Z :=
  lastIndexOf_from 0 (-1) c s.

(** [s.substring(i)] for [0 <= i]. *)
Definition substring (i : Z) (s : jsstring) : jsstring :=
  skipn (Z.to_nat i) s.

End Js.

Arguments Js.lit : simpl never.
Arguments Js.ofNumber : simpl never.
Arguments Js.trim : simpl never.

Definition jsstring : Type := Js.jsstring.
Notation "'js' s" := (Js.lit s%string) (at level 9, s at level 0, only parsing).

Definition dot : Js.char16 := 46%N.

(* ===================================================================== *)
(** ** Values exchanged with the collaborators *)
(* ===================================================================== *)

(** A thrown or returned error object. The handlers only ever read its
    [message], which may be missing. *)
Record JsError := { message : option jsstring }.

(** [new Error(msg)] *)
Definition new_Error (msg : jsstring) : JsError := {| message := Some msg |}.

(** [error.message || fallback] *)
Definition message_or (e : JsError) (fallback : jsstring) : jsstring :=
  match message e with
  | Some m => if Js.truthy m then m else fallback
  | None => fallback
  end.

(** A settled promise. *)
Inductive Promise (A : Type) : Type :=
| Resolved (a : A)
| Rejected (e : JsError).
Arguments Resolved {A} a.
Arguments Rejected {A} e.

(** [interface Submission] *)
Module Submission.

Record t := {
  id : jsstring;
  name : jsstring;
  image_url : jsstring;
  created_at : option jsstring
}.

End Submission.

(** The object literal [{ name, image_url: imageUrl }] handed to [insert]. *)
Module NewRow.

Record t := {
  name : jsstring;
  image_url : jsstring
}.

End NewRow.

(** [interface ImagePickerResult]; of an asset only [uri] is read. *)
Record Asset := { uri : jsstring }.

Record ImagePickerResult := {
  canceled : bool;
  assets : option (list Asset)
}.

Record Blob := { size : Z }.

(** The [Response] of [fetch]: [ok], [status], and what [blob()] settles to. *)
Record Response := {
  ok : bool;
  status : Z;
  blob : Promise Blob
}.

(** The [{ data, error }] pair every Supabase call resolves to. *)
Record SupabaseResult (T : Type) := {
  data : option T;
  error : option JsError
}.
Arguments data {T} _.
Arguments error {T} _.

(** The collaborators. [TypeError] is the object the engine throws when a
    property of [undefined] is read; its text is engine specific. *)
Record Env := {
  Date_now : Z;
  fetch : jsstring -> Promise Response;
  launchImageLibraryAsync : Promise ImagePickerResult;
  storage_upload : jsstring -> jsstring -> Blob -> Promise (SupabaseResult unit);
  storage_getPublicUrl : jsstring -> jsstring -> jsstring;
  from_insert : jsstring -> list NewRow.t -> Promise (SupabaseResult unit);
  from_select_order :
    jsstring -> jsstring -> jsstring -> bool ->
    Promise (SupabaseResult (list Submission.t));
  TypeError : JsError
}.

(** What the component does to the outside, in order, each call with
    the answer it received. *)
Inductive Event :=
| Alert_alert (title text : jsstring)
| console_error (label : jsstring) (e : JsError)
| Call_launchImageLibraryAsync (answer : Promise ImagePickerResult)
| Call_fetch (resource : jsstring) (answer : Promise Response)
| Call_upload (bucket path : jsstring) (body : Blob)
              (answer : Promise (SupabaseResult unit))
| Call_getPublicUrl (bucket path : jsstring) (publicUrl : jsstring)
| Call_insert (table : jsstring) (rows : list NewRow.t)
              (answer : Promise (SupabaseResult unit))
| Call_select (table columns orderBy : jsstring) (ascending : bool)
              (answer : Promise (SupabaseResult (list Submission.t))).

Definition is_upload (ev : Event) : bool :=
  match ev with Call_upload _ _ _ _ => true | _ => false end.

Definition is_insert (ev : Event) : bool :=
  match ev with Call_insert _ _ _ => true | _ => false end.

(** A call that leaves the device for the remote backend. *)
Definition is_remote (ev : Event) : bool :=
  match ev with
  | Call_upload _ _ _ _ | Call_getPublicUrl _ _ _
  | Call_insert _ _ _ | Call_select _ _ _ _ _ => true
  | _ => false
  end.

(* ===================================================================== *)
(** ** Component state *)
(* ===================================================================== *)

(** The seven [useState] cells of [HomeScreen]. *)
Record State := {
  name : jsstring;
  image : option jsstring;
  uploading : bool;
  submissions : list Submission.t;
  loadingSubmissions : bool;
  refreshing : bool;
  isConnected : bool
}.

(** The initial values given to [useState]. *)
Definition initialState : State :=
  {| name := []; image := None; uploading := false; submissions := [];
     loadingSubmissions := false; refreshing := false; isConnected := true |}.

Definition with_name (v : jsstring) (s : State) : State :=
  {| name := v; image := image s; uploading := uploading s;
     submissions := submissions s;
     loadingSubmissions := loadingSubmissions s;
     refreshing := refreshing s; isConnected := isConnected s |}.

Definition with_image (v : option jsstring) (s : State) : State :=
  {| name := name s; image := v; uploading := uploading s;
     submissions := submissions s;
     loadingSubmissions := loadingSubmissions s;
     refreshing := refreshing s; isConnected := isConnected s |}.

Definition with_uploading (v : bool) (s : State) : State :=
  {| name := name s; image := image s; uploading := v;
     submissions := submissions s;
     loadingSubmissions := loadingSubmissions s;
     refreshing := refreshing s; isConnected := isConnected s |}.

Definition with_submissions (v : list Submission.t) (s : State) : State :=
  {| name := name s; image := image s; uploading := uploading s;
     submissions := v;
     loadingSubmissions := loadingSubmissions s;
     refreshing := refreshing s; isConnected := isConnected s |}.

Definition with_loadingSubmissions (v : bool) (s : State) : State :=
  {| name := name s; image := image s; uploading := uploading s;
     submissions := submissions s;
     loadingSubmissions := v;
     refreshing := refreshing s; isConnected := isConnected s |}.

Definition with_refreshing (v : bool) (s : State) : State :=
  {| name := name s; image := image s; uploading := uploading s;
     submissions := submissions s;
     loadingSubmissions := loadingSubmissions s;
     refreshing := v; isConnected := isConnected s |}.

(** [!image] is false exactly for a non-empty string; after the guard the
    type of [image] is narrowed to [string]. *)
Definition narrow (image : option jsstring) : option jsstring :=
  match image with
  | Some u => if Js.truthy u then Some u else None
  | None => None
  end.

(* ===================================================================== *)
(** ** Control flow: completions, state and the log *)
(* ===================================================================== *)

(** How a block ends: it falls through with a value, executes [return],
    or throws. *)
Inductive Completion (A : Type) : Type :=
| Normal (a : A)
| Return
| Throw (e : JsError).
Arguments Normal {A} a.
Arguments Return {A}.
Arguments Throw {A} e.

Definition World : Type := State * list Event.

Definition M (A : Type) : Type := World -> Completion A * World.

Definition ret {A} (a : A) : M A := fun w => (Normal a, w).

Definition bind {A B} (m : M A) (k : A -> M B) : M B := fun w =>
  match m w with
  | (Normal a, w1) => k a w1
  | (Return, w1) => (Return, w1)
  | (Throw e, w1) => (Throw e, w1)
  end.

Declare Scope handler_scope.
Delimit Scope handler_scope with handler.
Notation "x <- m ;; k" := (bind m (fun x => k))
  (at level 61, m at next level, right associativity) : handler_scope.
Notation "m ;; k" := (bind m (fun _ => k))
  (at level 61, right associativity) : handler_scope.

(** [return;] *)
Definition return_ {A} : M A := fun w => (Return, w).

(** [throw e;] *)
Definition throw {A} (e : JsError) : M A := fun w => (Throw e, w).

(** [if (c) { body }] with nothing on the other branch. *)
Definition when (c : bool) (body : M unit) : M unit :=
  if c then body else ret tt.

(** [try { body } catch (e) { handler e }] *)
Definition try_catch {A} (body : M A) (handler : JsError -> M A) : M A :=
  fun w =>
    match body w with
    | (Throw e, w1) => handler e w1
    | r => r
    end.

(** [try { body } finally { fin }]: [fin] runs however [body] ended, and
    the completion of [body] stands unless [fin] itself ends abruptly. *)
Definition try_finally {A} (body : M A) (fin : M unit) : M A := fun w =>
  match body w with
  | (c, w1) =>
      match fin w1 with
      | (Normal _, w2) => (c, w2)
      | (Return, w2) => (Return, w2)
      | (Throw e, w2) => (Throw e, w2)
      end
  end.

(** The body of an [async] function: [return] resolves the promise, an
    escaping exception rejects it. *)
Definition async (body : M unit) : M unit := fun w =>
  match body w with
  | (Return, w1) => (Normal tt, w1)
  | r => r
  end.

(** Calling an [async] function without awaiting it and without a
    rejection handler: however its promise settles, the caller goes on. *)
Definition not_awaited (call : M unit) : M unit := fun w =>
  match call w with
  | (_, w1) => (Normal tt, w1)
  end.

(** [await p] *)
Definition await {A} (p : Promise A) : M A :=
  match p with
  | Resolved a => ret a
  | Rejected e => throw e
  end.

Definition getState : M State := fun w => (Normal (fst w), w).

Definition setState (f : State -> State) : M unit := fun w =>
  (Normal tt, (f (fst w), snd w)).

Definition emit (ev : Event) : M unit := fun w =>
  (Normal tt, (fst w, snd w ++ [ev])).

Definition setName v := setState (with_name v).
Definition setImage v := setState (with_image v).
Definition setUploading v := setState (with_uploading v).
Definition setSubmissions v := setState (with_submissions v).
Definition setLoadingSubmissions v := setState (with_loadingSubmissions v).
Definition setRefreshing v := setState (with_refreshing v).

(* ===================================================================== *)
(** ** The handlers of [HomeScreen] *)
(* ===================================================================== *)

Section Handlers.

Variable env : Env.

Local Open Scope handler_scope.

(** Calls to the collaborators: the answer comes from [env] and the call
    is logged with it. *)

Definition ImagePicker_launchImageLibraryAsync : M ImagePickerResult :=
  let answer := launchImageLibraryAsync env in
  emit (Call_launchImageLibraryAsync answer) ;; await answer.

Definition js_fetch (resource : jsstring) : M Response :=
  let answer := fetch env resource in
  emit (Call_fetch resource answer) ;; await answer.

Definition supabase_storage_upload (bucket path : jsstring) (body : Blob)
  : M (SupabaseResult unit) :=
  let answer := storage_upload env bucket path body in
  emit (Call_upload bucket path body answer) ;; await answer.

(** [getPublicUrl] is synchronous; [urlData.publicUrl] is what is read. *)
Definition supabase_storage_getPublicUrl (bucket path : jsstring) : M jsstring :=
  let publicUrl := storage_getPublicUrl env bucket path in
  emit (Call_getPublicUrl bucket path publicUrl) ;; ret publicUrl.

Definition supabase_insert (table : jsstring) (rows : list NewRow.t)
  : M (SupabaseResult unit) :=
  let answer := from_insert env table rows in
  emit (Call_insert table rows answer) ;; await answer.

Definition supabase_select_order
  (table columns orderBy : jsstring) (ascending : bool)
  : M (SupabaseResult (list Submission.t)) :=
  let answer := from_select_order env table columns orderBy ascending in
  emit (Call_select table columns orderBy ascending answer) ;; await answer.

(** [if (error) throw error;] *)
Definition throw_if (error : option JsError) : M unit :=
  match error with
  | Some e => throw e
  | None => ret tt
  end.

(** Lines 77-93. *)
Definition fetchSubmissions : M unit :=
  async (
    setLoadingSubmissions true ;;
    try_finally
      (try_catch
         (r <- supabase_select_order
                 (js "form_submissions") (js "*") (js "created_at") false ;;
          throw_if (error r) ;;
          match data r with
          | Some d => setSubmissions d
          | None => ret tt
          end)
         (fun error =>
            emit (console_error (js "Error fetching submissions:") error) ;;
            emit (Alert_alert (js "Error")
                    (message_or error (js "Failed to load submissions")))))
      (setLoadingSubmissions false)).

(** [p.then(callback)] on the promise of an [async] call: the callback
    runs once the promise has resolved. *)
Definition then_ (call : M unit) (callback : M unit) : M unit :=
  call ;; callback.

(** Lines 95-100. *)
Definition onRefresh : M unit :=
  setRefreshing true ;;
  not_awaited (then_ fetchSubmissions (setRefreshing false)).

(** [result.assets[0].uri]: reading [uri] of [undefined] throws. *)
Definition first_uri (assets : list Asset) : M jsstring :=
  match assets with
  | a :: _ => ret (uri a)
  | [] => throw (TypeError env)
  end.

(** Lines 103-117. *)
Definition pickImage : M unit :=
  async (
    result <- ImagePicker_launchImageLibraryAsync ;;
    match canceled result, assets result with
    | false, Some some_assets =>
        u <- first_uri some_assets ;;
        setImage (Some u)
    | _, _ => ret tt
    end).

(** [const fileExt = image.split('.').pop();] *)
Definition fileExt (image : jsstring) : option jsstring :=
  Js.pop (Js.split dot image).

(** [const fileName = `${Date.now()}.${fileExt}`;] and
    [const filePath = `${fileName}`;] *)
Definition filePath (now : Z) (image : jsstring) : jsstring :=
  Js.ofNumber now ++ js "." ++ Js.splice (fileExt image).

(** Lines 120-197. [name], [image] and [isConnected] are the constants
    of the render that created the handler.

    The call to [fetchSubmissions] on line 188 is not awaited: in the
    program its first segment runs at once and the remainder after the
    [finally] block of [handleSubmit]. The two write disjoint state cells
    and [handleSubmit] logs nothing after the call, so running the call
    to its end before the [finally] block yields the same final state
    and the same log. *)
Definition handleSubmit : M unit :=
  async (
    st <- getState ;;
    let name := name st in
    let image := image st in
    let isConnected := isConnected st in
    when (negb (Js.truthy (Js.trim name)))
      (emit (Alert_alert (js "Error") (js "Please enter your name")) ;;
       return_) ;;
    match narrow image with
    | None =>
        emit (Alert_alert (js "Error") (js "Please select an image")) ;;
        return_
    | Some image =>
        when (negb isConnected)
          (emit (Alert_alert (js "Error")
                   (js "No network connection. Please try again later.")) ;;
           return_) ;;
        setUploading true ;;
        try_finally
          (try_catch
             (let filePath := filePath (Date_now env) image in
              response <- js_fetch image ;;
              when (negb (ok response))
                (throw (new_Error (js "Failed to fetch image: "
                                   ++ Js.ofNumber (status response)))) ;;
              blob <- await (blob response) ;;
              when (size blob >? 5 * 1024 * 1024)
                (emit (Alert_alert (js "Error")
                         (js "Image size must be less than 5MB")) ;;
                 setUploading false ;;
                 return_) ;;
              uploaded <- supabase_storage_upload (js "form_images") filePath blob ;;
              throw_if (error uploaded) ;;
              imageUrl <- supabase_storage_getPublicUrl (js "form_images") filePath ;;
              inserted <- supabase_insert (js "form_submissions")
                            [ {| NewRow.name := name;
                                 NewRow.image_url := imageUrl |} ] ;;
              throw_if (error inserted) ;;
              setName [] ;;
              setImage None ;;
              emit (Alert_alert (js "Success")
                      (js "Your information has been saved!")) ;;
              not_awaited fetchSubmissions)
             (fun error =>
                emit (console_error (js "Error submitting form:") error) ;;
                emit (Alert_alert (js "Error")
                        (message_or error
                           (js "Something went wrong while submitting your form")))))
          (setUploading false)
    end).

End Handlers.

(** Running a handler from a state, with an empty log. *)
Definition run {A} (m : M A) (st : State) : Completion A * World :=
  m (st, []).

Definition completion {A} (m : M A) (st : State) : Completion A :=
  fst (run m st).

Definition final {A} (m : M A) (st : State) : State :=
  fst (snd (run m st)).

Definition trace {A} (m : M A) (st : State) : list Event :=
  snd (snd (run m st)).

(* ===================================================================== *)
(** ** Effects and rendering of [HomeScreen] *)
(* ===================================================================== *)

Definition with_isConnected (v : bool) (s : State) : State :=
  {| name := name s; image := image s; uploading := uploading s;
     submissions := submissions s;
     loadingSubmissions := loadingSubmissions s;
     refreshing := refreshing s; isConnected := v |}.

Definition setIsConnected v := setState (with_isConnected v).

Section Effects.

Local Open Scope handler_scope.

(** Lines 44-47. The argument is what [NetInfo.fetch()] settles to, read
    at [isConnected], a boolean like the cell it is stored in. *)
Definition checkNetworkConnection (NetInfo_fetch : Promise bool) : M unit :=
  async (
    networkState_isConnected <- await NetInfo_fetch ;;
    setIsConnected networkState_isConnected).

(** Lines 52-57: the callback registered with [NetInfo.addEventListener],
    applied to a state whose [isConnected] is the argument. *)
Definition netInfoListener (state_isConnected : bool) : M unit :=
  setIsConnected state_isConnected ;;
  when (negb state_isConnected)
    (emit (Alert_alert (js "Network Connection Lost")
             (js "You are currently offline. Some features may not work correctly."))).

End Effects.

(** Line 207: the banner [You are offline] is rendered under [!isConnected]. *)
Definition offlineBanner (st : State) : option jsstring :=
  if negb (isConnected st) then Some (js "You are offline") else None.

(** Lines 250-257: [disabled={uploading || !name || !image}] on the
    submit control. *)
Definition submitDisabled (st : State) : bool :=
  uploading st
  || negb (Js.truthy (name st))
  || match narrow (image st) with Some _ => false | None => true end.

(** One rendered entry of the list, lines 272-283: the React key, the
    image source, the accessibility label of the image and the text. *)
Record SubmissionItem := {
  item_key : jsstring;
  item_source : jsstring;
  item_label : jsstring;
  item_text : jsstring
}.

Definition submissionItem (item : Submission.t) : SubmissionItem :=
  {| item_key := Submission.id item;
     item_source := Submission.image_url item;
     item_label := js "Image uploaded by " ++ Submission.name item;
     item_text := Submission.name item |}.

(** What stands under the title [Recent Submissions], lines 269-286. *)
Inductive SubmissionsList :=
| ActivityIndicator
| Items (items : list SubmissionItem)
| EmptyText (text : jsstring).

Definition submissionsList (st : State) : SubmissionsList :=
  if loadingSubmissions st then ActivityIndicator
  else if Z.of_nat (List.length (submissions st)) >? 0
       then Items (map submissionItem (submissions st))
       else EmptyText (js "No submissions yet").

(* ===================================================================== *)
(** ** Vocabulary of the statements *)
(* ===================================================================== *)

(** A name that is empty or made of white space only. *)
Definition whitespace_only (s : jsstring) : Prop :=
  forallb Js.isWhiteSpace s = true.

(** The error a Supabase call ends with, whether its promise rejects or
    resolves to a non-null [error]; [None] when the call succeeds. *)
Definition failure_of {T} (answer : Promise (SupabaseResult T)) : option JsError :=
  match answer with
  | Rejected e => Some e
  | Resolved r => error r
  end.

(** The extension as the specification words it, to be compared with
    [fileExt]: the substring of the URI after its last ['.'], with the
    convention of [substring] and [lastIndexOf] that a URI without any
    ['.'] is taken whole. *)
Definition extension_after_last_dot (image_uri : jsstring) : jsstring :=
  Js.substring (Js.lastIndexOf dot image_uri + 1) image_uri.

(** The contract of the object store for [getPublicUrl], whose code is
    the Supabase client's and not the component's: a public URL is a
    fetchable address, so it is never the empty string. *)
Definition public_urls_nonempty (env : Env) : Prop :=
  forall bucket path, storage_getPublicUrl env bucket path <> [].

(** The three messages of the validation guards, in the order tested. *)
Definition validation_messages : list jsstring :=
  [ js "Please enter your name";
    js "Please select an image";
    js "No network connection. Please try again later." ].

(** The size ceiling, [5 * 1024 * 1024] bytes. *)
Definition size_limit : Z := 5242880.

(** *** Concrete collaborators used to exercise the statements *)

Definition photo_uri : jsstring := js "file:///cache/ImagePicker/photo.jpg".

Definition example_url (bucket path : jsstring) : jsstring :=
  js "https://demo.supabase.co/storage/v1/object/public/"
  ++ bucket ++ js "/" ++ path.

Definition alice : Submission.t :=
  {| Submission.id := js "7";
     Submission.name := js "Alice";
     Submission.image_url := example_url (js "form_images") (js "1700000000000.jpg");
     Submission.created_at := Some (js "2023-11-14T22:13:20Z") |}.

Definition bob : Submission.t :=
  {| Submission.id := js "3";
     Submission.name := js "Bob";
     Submission.image_url := example_url (js "form_images") (js "1600000000000.png");
     Submission.created_at := Some (js "2020-09-13T12:26:40Z") |}.

(** A backend that stores an image of [blob_size] bytes, and whose insert
    and query end with the given errors, if any. *)
Definition example_env
  (blob_size : Z) (insert_error query_error : option JsError)
  (picked : ImagePickerResult) : Env :=
  {| Date_now := 1700000000000;
     fetch := fun _ =>
       Resolved {| ok := true; status := 200;
                   blob := Resolved {| size := blob_size |} |};
     launchImageLibraryAsync := Resolved picked;
     storage_upload := fun _ _ _ =>
       Resolved {| data := Some tt; error := None |};
     storage_getPublicUrl := example_url;
     from_insert := fun _ _ =>
       Resolved {| data := None; error := insert_error |};
     from_select_order := fun _ _ _ _ =>
       Resolved {| data := match query_error with
                           | None => Some [alice; bob; bob]
                           | Some _ => None
                           end;
                   error := query_error |};
     TypeError := {| message := Some (js "undefined is not an object") |} |}.

Definition picked_photo : ImagePickerResult :=
  {| canceled := false; assets := Some [ {| uri := photo_uri |} ] |}.

Definition picker_canceled : ImagePickerResult :=
  {| canceled := true; assets := None |}.

Definition duplicate_key : JsError :=
  {| message := Some (js "duplicate key value violates unique constraint") |}.

Definition env_ok : Env := example_env 2000000 None None picked_photo.
Definition env_too_big : Env := example_env 5242881 None None picked_photo.
Definition env_insert_fails : Env :=
  example_env 2000000 (Some duplicate_key) None picked_photo.
Definition env_query_fails : Env :=
  example_env 2000000 None (Some {| message := None |}) picked_photo.
Definition env_canceled : Env := example_env 2000000 None None picker_canceled.

(** A filled-in draft, and the same with white space around the name. *)
Definition draft (n : jsstring) : State :=
  with_image (Some photo_uri) (with_name n initialState).

Definition draft_alice : State := draft (js "Alice").
Definition draft_padded : State := draft (js "  Alice ").

(** *** Notices and further collaborators *)

Definition name_alert : Event :=
  Alert_alert (js "Error") (js "Please enter your name").

Definition image_alert : Event :=
  Alert_alert (js "Error") (js "Please select an image").

Definition network_alert : Event :=
  Alert_alert (js "Error")
    (js "No network connection. Please try again later.").

Definition success_alert : Event :=
  Alert_alert (js "Success") (js "Your information has been saved!").

Definition bucket_missing : JsError :=
  {| message := Some (js "Bucket not found") |}.

Definition env_upload_fails : Env :=
  {| Date_now := 1700000000000;
     fetch := fetch env_ok;
     launchImageLibraryAsync := launchImageLibraryAsync env_ok;
     storage_upload := fun _ _ _ =>
       Resolved {| data := None; error := Some bucket_missing |};
     storage_getPublicUrl := example_url;
     from_insert := from_insert env_ok;
     from_select_order := from_select_order env_ok;
     TypeError := TypeError env_ok |}.

Definition env_not_found : Env :=
  {| Date_now := 1700000000000;
     fetch := fun _ =>
       Resolved {| ok := false; status := 404;
                   blob := Rejected {| message := None |} |};
     launchImageLibraryAsync := launchImageLibraryAsync env_ok;
     storage_upload := storage_upload env_ok;
     storage_getPublicUrl := example_url;
     from_insert := from_insert env_ok;
     from_select_order := from_select_order env_ok;
     TypeError := TypeError env_ok |}.

Definition unreadable : JsError :=
  {| message := Some (js "Network request failed") |}.

Definition env_unreadable : Env :=
  {| Date_now := 1700000000000;
     fetch := fun _ => Rejected unreadable;
     launchImageLibraryAsync := launchImageLibraryAsync env_ok;
     storage_upload := storage_upload env_ok;
     storage_getPublicUrl := example_url;
     from_insert := from_insert env_ok;
     from_select_order := from_select_order env_ok;
     TypeError := TypeError env_ok |}.

Definition env_no_data : Env :=
  {| Date_now := 1700000000000;
     fetch := fetch env_ok;
     launchImageLibraryAsync := launchImageLibraryAsync env_ok;
     storage_upload := storage_upload env_ok;
     storage_getPublicUrl := example_url;
     from_insert := from_insert env_ok;
     from_select_order := fun _ _ _ _ =>
       Resolved {| data := None; error := None |};
     TypeError := TypeError env_ok |}.

Definition connection_lost_alert : Event :=
  Alert_alert (js "Network Connection Lost")
    (js "You are currently offline. Some features may not work correctly.").

Definition silent_error : JsError := {| message := Some [] |}.

(* ===================================================================== *)
(** ** Sample evaluations *)
(* ===================================================================== *)

Example trim_Alice :
  Js.trim (js "  Alice ") = js "Alice".
Proof. reflexivity. Qed.

Example split_uri :
  Js.split dot (js "file:///cache/a.b/photo.jpg")
  = [js "file:///cache/a"; js "b/photo"; js "jpg"].
Proof. reflexivity. Qed.

Example ofNumber_now : Js.ofNumber 1700000000000 = js "1700000000000".
Proof. reflexivity. Qed.

Example ofNumber_zero : Js.ofNumber 0 = js "0".
Proof. reflexivity. Qed.

Example ofNumber_neg : Js.ofNumber (-42) = js "-42".
Proof. reflexivity. Qed.

(* ===================================================================== *)
(** ** Facts about the string operations *)
(* ===================================================================== *)

Section StringFacts.

Lemma trimStart_nil_iff (s : jsstring) :
  Js.trimStart s = [] <-> forallb Js.isWhiteSpace s = true.
Proof.
  induction s as [|c rest IH]; simpl.
  - tauto.
  - destruct (Js.isWhiteSpace c); simpl.
    + exact IH.
    + split; discriminate.
Qed.

(** [trim] removes code units, it never adds any. *)
Lemma trimStart_length (s : jsstring) :
  (List.length (Js.trimStart s) <= List.length s)%nat.
Proof.
  induction s as [|c rest IH]; simpl; [lia|].
  destruct (Js.isWhiteSpace c); simpl; lia.
Qed.

Lemma trim_nil_iff (s : jsstring) :
  Js.trim s = [] <-> forallb Js.isWhiteSpace s = true.
Proof.
  unfold Js.trim, Js.trimEnd. split.
  - intros H. apply trimStart_nil_iff.
    destruct (Js.trimStart s) as [|c rest] eqn:E; [reflexivity|].
    exfalso.
    assert (Hr : Js.trimStart (rev (c :: rest)) = []).
    { destruct (Js.trimStart (rev (c :: rest))); [reflexivity|].
      simpl in H. symmetry in H. apply app_cons_not_nil in H. contradiction. }
    apply trimStart_nil_iff in Hr.
    rewrite forallb_forall in Hr.
    assert (Hc : Js.isWhiteSpace c = true)
      by (apply Hr, in_rev; rewrite rev_involutive; left; reflexivity).
    destruct s as [|d s']; [discriminate|].
    simpl in E. destruct (Js.isWhiteSpace d) eqn:Hd.
    + (* the first unit that survives [trimStart] is not white space *)
      clear - E Hc. induction s' as [|x s' IH]; simpl in E; [discriminate|].
      destruct (Js.isWhiteSpace x) eqn:Hx; [auto|].
      injection E as -> _. congruence.
    + injection E as -> _. congruence.
  - intros H. apply trimStart_nil_iff in H. rewrite H. reflexivity.
Qed.

(** A name that passes the guard [!name.trim()] is not the empty string. *)
Lemma trim_truthy_nonempty (s : jsstring) :
  Js.truthy (Js.trim s) = true -> s <> [].
Proof. intros H ->. discriminate. Qed.

Lemma truthy_false_iff (s : jsstring) : Js.truthy s = false <-> s = [].
Proof. destruct s; simpl; split; congruence. Qed.

Lemma split_not_nil (sep : Js.char16) (s : jsstring) : Js.split sep s <> [].
Proof.
  destruct s as [|c rest]; simpl; [discriminate|].
  destruct (c =? sep)%N; [discriminate|].
  destruct (Js.split sep rest); discriminate.
Qed.

Lemma split_no_sep (sep : Js.char16) (s : jsstring) :
  ~ In sep s -> Js.split sep s = [s].
Proof.
  induction s as [|c rest IH]; simpl; intros H; [reflexivity|].
  destruct (N.eqb_spec c sep) as [->|_]; [exfalso; auto|].
  rewrite IH by tauto. reflexivity.
Qed.

Lemma split_app (sep : Js.char16) (pre suf : jsstring) :
  Js.split sep (pre ++ sep :: suf) = Js.split sep pre ++ Js.split sep suf.
Proof.
  induction pre as [|c pre IH]; simpl.
  - rewrite N.eqb_refl. reflexivity.
  - destruct (c =? sep)%N.
    + rewrite IH. reflexivity.
    + rewrite IH. pose proof (split_not_nil sep pre) as Hne.
      destruct (Js.split sep pre); [contradiction|reflexivity].
Qed.

Lemma pop_app (l1 l2 : list jsstring) :
  l2 <> [] -> Js.pop (l1 ++ l2) = Js.pop l2.
Proof.
  intros Hne. induction l1 as [|x l1 IH]; [reflexivity|].
  simpl. destruct (l1 ++ l2) eqn:E; [|exact IH].
  apply app_eq_nil in E. tauto.
Qed.

Lemma pop_split_some (sep : Js.char16) (s : jsstring) :
  exists piece, Js.pop (Js.split sep s) = Some piece.
Proof.
  pose proof (split_not_nil sep s) as Hne.
  induction (Js.split sep s) as [|x l IH]; [contradiction|].
  destruct l as [|y l]; [exists x; reflexivity|].
  destruct IH as [p Hp]; [discriminate|]. exists p. exact Hp.
Qed.

(** Every string either lacks the unit [c] or breaks at its last [c]. *)
Lemma last_occurrence (c : Js.char16) (s : jsstring) :
  ~ In c s \/ exists pre suf, s = pre ++ c :: suf /\ ~ In c suf.
Proof.
  induction s as [|d s IH].
  - left. simpl. tauto.
  - destruct IH as [Hno | (pre & suf & -> & Hsuf)].
    + destruct (N.eq_dec d c) as [->|Hd].
      * right. exists [], s. auto.
      * left. simpl. tauto.
    + right. exists (d :: pre), suf. auto.
Qed.

Lemma lastIndexOf_from_absent (c : Js.char16) (s : jsstring) (i found : Z) :
  ~ In c s -> Js.lastIndexOf_from i found c s = found.
Proof.
  revert i found. induction s as [|d s IH]; simpl; intros i found H; [reflexivity|].
  destruct (N.eqb_spec d c) as [->|_]; [exfalso; auto|].
  apply IH. tauto.
Qed.

Lemma lastIndexOf_from_last (c : Js.char16) (pre suf : jsstring) (i found : Z) :
  ~ In c suf ->
  Js.lastIndexOf_from i found c (pre ++ c :: suf) = i + Z.of_nat (List.length pre).
Proof.
  intros Hsuf. revert i found.
  induction pre as [|d pre IH]; simpl List.length; simpl app; intros i found.
  - simpl. rewrite N.eqb_refl. rewrite lastIndexOf_from_absent by assumption. lia.
  - simpl. rewrite IH. lia.
Qed.

End StringFacts.

(** The extension computed by [fileExt], described on the URI itself. *)
Lemma fileExt_after_last_dot (pre ext : jsstring) :
  ~ In dot ext -> fileExt (pre ++ dot :: ext) = Some ext.
Proof.
  intros H. unfold fileExt.
  rewrite split_app, pop_app, split_no_sep by (try apply split_not_nil; assumption).
  reflexivity.
Qed.

Lemma fileExt_no_dot (image : jsstring) :
  ~ In dot image -> fileExt image = Some image.
Proof.
  intros H. unfold fileExt. rewrite split_no_sep by assumption. reflexivity.
Qed.

(** [image.split('.').pop()] is [image.substring(image.lastIndexOf('.') + 1)]. *)
Lemma fileExt_substring (image : jsstring) :
  fileExt image = Some (Js.substring (Js.lastIndexOf dot image + 1) image).
Proof.
  unfold Js.lastIndexOf, Js.substring.
  destruct (last_occurrence dot image) as [Hno | (pre & suf & -> & Hsuf)].
  - rewrite fileExt_no_dot, lastIndexOf_from_absent by assumption. reflexivity.
  - rewrite fileExt_after_last_dot, lastIndexOf_from_last by assumption.
    replace (Z.to_nat (0 + Z.of_nat (List.length pre) + 1))
      with (List.length pre + 1)%nat by lia.
    change (pre ++ dot :: suf) with (pre ++ [dot] ++ suf). rewrite app_assoc.
    replace (List.length pre + 1)%nat with (List.length (pre ++ [dot]))
      by (rewrite length_app; reflexivity).
    rewrite skipn_app, skipn_all, Nat.sub_diag. reflexivity.
Qed.

(* ===================================================================== *)
(** ** Symbolic execution of the handlers *)
(* ===================================================================== *)

Arguments filePath : simpl never.
Arguments Z.mul : simpl never.
Arguments Z.gtb : simpl never.

Ltac unfold_handlers H :=
  unfold run,
    handleSubmit, fetchSubmissions, pickImage,
    supabase_select_order, supabase_insert, supabase_storage_upload,
    supabase_storage_getPublicUrl, js_fetch,
    ImagePicker_launchImageLibraryAsync,
    first_uri, throw_if, not_awaited, async, try_finally, try_catch,
    when, await, bind, ret, throw, return_, getState, emit,
    setName, setImage, setUploading, setSubmissions,
    setLoadingSubmissions, setState in H.

(** Case analysis on the innermost scrutinee that blocks evaluation. *)
Ltac innermost x :=
  lazymatch x with
  | context [match ?y with _ => _ end] => innermost y
  | _ => destruct x eqn:?
  end.

Ltac break_in H :=
  cbn in H;
  lazymatch type of H with
  | context [match ?x with _ => _ end] => innermost x
  end.

(** From [H : run handler st = (c, (st', log))], one goal per path
    through the handler, with [c], [st'] and [log] replaced by what the
    path computes and the decisions taken along it as hypotheses. *)
Ltac exec H :=
  unfold_handlers H; repeat (break_in H); cbn in H;
  inversion H; subst; clear H.

(** Opening a statement about [completion], [final] and [trace]. *)
Ltac open_run handler st c st' log H :=
  unfold completion, final, trace;
  destruct (run handler st) as [c [st' log]] eqn:H;
  cbn [fst snd].

(** Writing the state setters out as records. *)
Ltac state_records :=
  unfold with_name, with_image, with_uploading, with_submissions,
    with_loadingSubmissions, with_refreshing;
  cbn [name image uploading submissions loadingSubmissions refreshing
       isConnected].

(** An event found in an explicit log is one of its entries. *)
Ltac in_log H :=
  cbn [In] in H;
  repeat match type of H with
         | _ \/ _ => destruct H as [H | H]
         end;
  try discriminate H; try contradiction.

(** [H : failure_of answer = Some e] after evaluation: identify [e]
    with the error found on the path. *)
Ltac same_error H :=
  cbn in H;
  first
    [ injection H as <-
    | match goal with
      | H1 : ?x = Some _ |- _ =>
          match type of H with
          | x = Some _ => rewrite H1 in H; injection H as <-
          end
      end ].

(** Membership in a concrete log, by evaluation. *)
Ltac by_evaluation :=
  vm_compute;
  first [ reflexivity
        | discriminate
        | repeat (first [ left; reflexivity | right ]) ].

Lemma negb_truthy_trim (s : jsstring) :
  negb (Js.truthy (Js.trim s)) = true <-> whitespace_only s.
Proof.
  unfold whitespace_only. rewrite <- trim_nil_iff, negb_true_iff.
  apply truthy_false_iff.
Qed.

(* ===================================================================== *)
(** ** [fetchSubmissions] *)
(* ===================================================================== *)

(** The promise of [fetchSubmissions] never rejects. *)
Lemma fetchSubmissions_resolves (env : Env) (st : State) :
  completion (fetchSubmissions env) st = Normal tt.
Proof.
  open_run (fetchSubmissions env) st c st' log H.
  exec H; reflexivity.
Qed.

(** C5: when the query of [fetchSubmissions] ends with an error, the
    submissions list is exactly the one held before the call (the only
    state cell written is [loadingSubmissions], back to [false]), and an
    error notice carrying the error's message, or the fallback text, is
    shown. *)
Theorem fetchSubmissions_error_keeps_list
  (env : Env) (st : State)
  (table columns orderBy : jsstring) (ascending : bool)
  (answer : Promise (SupabaseResult (list Submission.t))) (e : JsError) :
  In (Call_select table columns orderBy ascending answer)
     (trace (fetchSubmissions env) st) ->
  failure_of answer = Some e ->
  submissions (final (fetchSubmissions env) st) = submissions st
  /\ final (fetchSubmissions env) st = with_loadingSubmissions false st
  /\ trace (fetchSubmissions env) st =
       [ Call_select (js "form_submissions") (js "*") (js "created_at")
           false answer;
         console_error (js "Error fetching submissions:") e;
         Alert_alert (js "Error")
           (message_or e (js "Failed to load submissions")) ].
Proof.
  open_run (fetchSubmissions env) st c st' log H.
  intros Hin Hfail.
  exec H; in_log Hin;
    injection Hin as <- <- <- <- <-; cbn in Hfail;
    repeat split; cbn; congruence.
Qed.

Lemma fetchSubmissions_error_keeps_list_witness :
  let st := with_submissions [bob] initialState in
  let answer : Promise (SupabaseResult (list Submission.t)) :=
    Resolved {| data := None; error := Some {| message := None |} |} in
  In (Call_select (js "form_submissions") (js "*") (js "created_at") false answer)
     (trace (fetchSubmissions env_query_fails) st)
  /\ failure_of answer = Some {| message := None |}
  /\ (submissions (final (fetchSubmissions env_query_fails) st) = submissions st
      /\ final (fetchSubmissions env_query_fails) st
         = with_loadingSubmissions false st
      /\ trace (fetchSubmissions env_query_fails) st =
           [ Call_select (js "form_submissions") (js "*") (js "created_at")
               false answer;
             console_error (js "Error fetching submissions:") {| message := None |};
             Alert_alert (js "Error")
               (message_or {| message := None |}
                  (js "Failed to load submissions")) ]).
Proof.
  intros st answer.
  assert (Hin : In (Call_select (js "form_submissions") (js "*")
                      (js "created_at") false answer)
                   (trace (fetchSubmissions env_query_fails) st))
    by by_evaluation.
  assert (Hfail : failure_of answer = Some {| message := None |})
    by reflexivity.
  exact (conj Hin (conj Hfail
           (fetchSubmissions_error_keeps_list env_query_fails st
              _ _ _ _ answer _ Hin Hfail))).
Defined.

(** C6: when the query of [fetchSubmissions] succeeds with record set
    [R], the submissions list becomes [R] itself, whatever it held
    before; the handler issues exactly one request, for all columns of
    [form_submissions] ordered by [created_at] with [ascending: false],
    and nothing else is logged (no second page, no merge). *)
Theorem fetchSubmissions_success_replaces_list
  (env : Env) (st : State)
  (table columns orderBy : jsstring) (ascending : bool)
  (r : SupabaseResult (list Submission.t)) (R : list Submission.t) :
  In (Call_select table columns orderBy ascending (Resolved r))
     (trace (fetchSubmissions env) st) ->
  error r = None ->
  data r = Some R ->
  submissions (final (fetchSubmissions env) st) = R
  /\ final (fetchSubmissions env) st
     = with_loadingSubmissions false (with_submissions R st)
  /\ trace (fetchSubmissions env) st =
       [ Call_select (js "form_submissions") (js "*") (js "created_at")
           false (Resolved r) ].
Proof.
  open_run (fetchSubmissions env) st c st' log H.
  intros Hin Herr Hdata.
  exec H; in_log Hin;
    injection Hin as <- <- <- <- <-;
    repeat split; state_records; congruence.
Qed.

Lemma fetchSubmissions_success_replaces_list_witness :
  let st := with_submissions [bob; alice] initialState in
  let r : SupabaseResult (list Submission.t) :=
    {| data := Some [alice; bob; bob]; error := None |} in
  In (Call_select (js "form_submissions") (js "*") (js "created_at") false
        (Resolved r))
     (trace (fetchSubmissions env_ok) st)
  /\ error r = None
  /\ data r = Some [alice; bob; bob]
  /\ (submissions (final (fetchSubmissions env_ok) st) = [alice; bob; bob]
      /\ final (fetchSubmissions env_ok) st
         = with_loadingSubmissions false
             (with_submissions [alice; bob; bob] st)
      /\ trace (fetchSubmissions env_ok) st =
           [ Call_select (js "form_submissions") (js "*") (js "created_at")
               false (Resolved r) ]).
Proof.
  intros st r.
  assert (Hin : In (Call_select (js "form_submissions") (js "*")
                      (js "created_at") false (Resolved r))
                   (trace (fetchSubmissions env_ok) st))
    by by_evaluation.
  exact (conj Hin (conj eq_refl (conj eq_refl
           (fetchSubmissions_success_replaces_list env_ok st
              _ _ _ _ r _ Hin eq_refl eq_refl)))).
Defined.

(* ===================================================================== *)
(** ** [pickImage] *)
(* ===================================================================== *)

(** C9: when the picker resolves to a cancelled result, or to one without
    assets ([assets] missing or empty), [pickImage] leaves the whole
    state, hence the image reference, as it was; and whenever the image
    reference differs after the call, the picker resolved to a result
    that is not cancelled and has a first asset, whose [uri] is the new
    image reference. *)
Theorem pickImage_cancel_keeps_image (env : Env) (st : State) :
  (forall result,
      In (Call_launchImageLibraryAsync (Resolved result))
         (trace (pickImage env) st) ->
      canceled result = true \/ assets result = None \/ assets result = Some [] ->
      final (pickImage env) st = st)
  /\ (image (final (pickImage env) st) <> image st ->
      exists result first others,
        launchImageLibraryAsync env = Resolved result
        /\ canceled result = false
        /\ assets result = Some (first :: others)
        /\ image (final (pickImage env) st) = Some (uri first)).
Proof.
  open_run (pickImage env) st c st' log H.
  split.
  - intros result Hin Hcase.
    exec H; in_log Hin; injection Hin as <-;
      try reflexivity;
      destruct Hcase as [Hc | [Ha | Ha]]; congruence.
  - intros Hchanged.
    exec H; try (exfalso; apply Hchanged; reflexivity).
    cbn. eauto 10.
Qed.

Lemma pickImage_cancel_keeps_image_witness :
  In (Call_launchImageLibraryAsync (Resolved picker_canceled))
     (trace (pickImage env_canceled) draft_alice)
  /\ canceled picker_canceled = true
  /\ final (pickImage env_canceled) draft_alice = draft_alice.
Proof.
  assert (Hin : In (Call_launchImageLibraryAsync (Resolved picker_canceled))
                   (trace (pickImage env_canceled) draft_alice))
    by by_evaluation.
  exact (conj Hin (conj eq_refl
           (proj1 (pickImage_cancel_keeps_image env_canceled draft_alice)
              picker_canceled Hin (or_introl eq_refl)))).
Defined.

(** A picked photo replaces the image reference of the draft. *)
Example pickImage_picks :
  image (final (pickImage env_ok) initialState) = Some photo_uri.
Proof. reflexivity. Qed.

(** A result that is not cancelled but carries an empty [assets] array
    makes the handler throw before [setImage]. *)
Example pickImage_empty_assets :
  let env := example_env 0 None None {| canceled := false; assets := Some [] |} in
  run (pickImage env) draft_alice
  = (Throw (TypeError env),
     (draft_alice,
      [Call_launchImageLibraryAsync
         (Resolved {| canceled := false; assets := Some [] |})])).
Proof. reflexivity. Qed.

(* ===================================================================== *)
(** ** [handleSubmit] *)
(* ===================================================================== *)

(** The promise of [handleSubmit] never rejects: every path ends in a
    [return], in the [catch] block, or at the end of the [try] block. *)
Lemma handleSubmit_resolves (env : Env) (st : State) :
  completion (handleSubmit env) st = Normal tt.
Proof.
  open_run (handleSubmit env) st c st' log H.
  exec H; reflexivity.
Qed.

(** C1: for a draft whose name is empty or white space only, or that has
    no selected image, or when [isConnected] is false, [handleSubmit]
    returns with the state untouched after exactly one alert, whose text
    is one of the three validation messages; the log holds no upload
    and no insert (nor any other call). *)
Theorem handleSubmit_validation_blocks_calls (env : Env) (st : State) :
  whitespace_only (name st) \/ image st = None \/ isConnected st = false ->
  completion (handleSubmit env) st = Normal tt
  /\ final (handleSubmit env) st = st
  /\ (exists text,
        trace (handleSubmit env) st = [Alert_alert (js "Error") text]
        /\ In text validation_messages)
  /\ (forall ev, In ev (trace (handleSubmit env) st) ->
                 is_upload ev = false /\ is_insert ev = false).
Proof.
  intros Hguard.
  assert (Hblocked :
            negb (Js.truthy (Js.trim (name st))) = true
            \/ narrow (image st) = None
            \/ negb (isConnected st) = true).
  { destruct Hguard as [Hn | [Hi | Hc]].
    - left. apply negb_truthy_trim. exact Hn.
    - right. left. rewrite Hi. reflexivity.
    - right. right. rewrite Hc. reflexivity. }
  clear Hguard. revert Hblocked.
  open_run (handleSubmit env) st c st' log H.
  intros Hblocked.
  exec H;
    try (destruct Hblocked as [Hb | [Hb | Hb]]; congruence);
    (split; [reflexivity|]); (split; [reflexivity|]);
    (split;
     [ eexists; split; [reflexivity|]; unfold validation_messages; cbn; tauto
     | intros ev Hev; in_log Hev; subst ev; split; reflexivity ]).
Qed.

Lemma handleSubmit_validation_blocks_calls_witness :
  let st := with_name (js "   ") draft_alice in
  (whitespace_only (name st) \/ image st = None \/ isConnected st = false)
  /\ (completion (handleSubmit env_ok) st = Normal tt
      /\ final (handleSubmit env_ok) st = st
      /\ (exists text,
            trace (handleSubmit env_ok) st = [Alert_alert (js "Error") text]
            /\ In text validation_messages)
      /\ (forall ev, In ev (trace (handleSubmit env_ok) st) ->
                     is_upload ev = false /\ is_insert ev = false)).
Proof.
  intros st.
  assert (Hguard : whitespace_only (name st) \/ image st = None
                   \/ isConnected st = false)
    by (left; reflexivity).
  exact (conj Hguard (handleSubmit_validation_blocks_calls env_ok st Hguard)).
Defined.

(** The three guards, one at a time, on the concrete collaborators. *)
Example handleSubmit_no_image :
  run (handleSubmit env_ok) (with_image None draft_alice)
  = (Normal tt,
     (with_image None draft_alice,
      [Alert_alert (js "Error") (js "Please select an image")])).
Proof. reflexivity. Qed.

Example handleSubmit_offline :
  let st := {| name := js "Alice"; image := Some photo_uri;
               uploading := false; submissions := [];
               loadingSubmissions := false; refreshing := false;
               isConnected := false |} in
  run (handleSubmit env_ok) st
  = (Normal tt,
     (st, [Alert_alert (js "Error")
             (js "No network connection. Please try again later.")])).
Proof. reflexivity. Qed.

(** C2: when the blob obtained from the fetched image is larger than
    5,242,880 bytes, the handler stops there: the log holds the local
    fetch followed by the size-limit alert and nothing else, so no call
    to the backend (upload, public URL, insert, query) is made; the
    state is the one at submit time with [uploading] false. *)
Theorem handleSubmit_oversized_image_stops
  (env : Env) (st : State)
  (resource : jsstring) (response : Response) (body : Blob) :
  In (Call_fetch resource (Resolved response)) (trace (handleSubmit env) st) ->
  ok response = true ->
  blob response = Resolved body ->
  size body > size_limit ->
  trace (handleSubmit env) st =
    [ Call_fetch resource (Resolved response);
      Alert_alert (js "Error") (js "Image size must be less than 5MB") ]
  /\ final (handleSubmit env) st = with_uploading false st
  /\ uploading (final (handleSubmit env) st) = false
  /\ (forall ev, In ev (trace (handleSubmit env) st) -> is_remote ev = false).
Proof.
  open_run (handleSubmit env) st c st' log H.
  intros Hin Hok Hblob Hsize.
  assert (Hgt : forall b, blob response = Resolved b ->
                          (size b >? 5 * 1024 * 1024) = true).
  { intros b Hb. assert (b = body) by congruence. subst b.
    unfold size_limit in Hsize. apply Z.gtb_lt. lia. }
  exec H; in_log Hin; injection Hin as <- <-;
    try (rewrite Hok in *; discriminate);
    try congruence;
    try match goal with
        | Hb : blob _ = Resolved ?b, Hs : (size ?b >? _) = false |- _ =>
            rewrite (Hgt b Hb) in Hs; discriminate Hs
        end.
  repeat split; try reflexivity.
  intros ev Hev. in_log Hev; subst ev; reflexivity.
Qed.

Lemma handleSubmit_oversized_image_stops_witness :
  let response :=
    {| ok := true; status := 200; blob := Resolved {| size := 5242881 |} |} in
  In (Call_fetch photo_uri (Resolved response))
     (trace (handleSubmit env_too_big) draft_alice)
  /\ ok response = true
  /\ blob response = Resolved {| size := 5242881 |}
  /\ size {| size := 5242881 |} > size_limit
  /\ (trace (handleSubmit env_too_big) draft_alice =
        [ Call_fetch photo_uri (Resolved response);
          Alert_alert (js "Error") (js "Image size must be less than 5MB") ]
      /\ final (handleSubmit env_too_big) draft_alice
         = with_uploading false draft_alice
      /\ uploading (final (handleSubmit env_too_big) draft_alice) = false
      /\ (forall ev, In ev (trace (handleSubmit env_too_big) draft_alice) ->
                     is_remote ev = false)).
Proof.
  intros response.
  assert (Hin : In (Call_fetch photo_uri (Resolved response))
                   (trace (handleSubmit env_too_big) draft_alice))
    by by_evaluation.
  assert (Hsize : size {| size := 5242881 |} > size_limit) by reflexivity.
  exact (conj Hin (conj eq_refl (conj eq_refl (conj Hsize
           (handleSubmit_oversized_image_stops env_too_big draft_alice
              photo_uri response _ Hin eq_refl eq_refl Hsize))))).
Defined.

(** An image of exactly 5,242,880 bytes is within the limit. *)
Example handleSubmit_at_limit :
  List.length (trace (handleSubmit (example_env 5242880 None None picked_photo))
                 draft_alice) = 6%nat.
Proof. reflexivity. Qed.

(** What the log of [handleSubmit] says about its calls to the backend:
    an upload goes to [form_images] under [filePath] of the clock and the
    narrowed image; an insert is preceded by a successful upload and by
    the retrieval of the public URL of the same path, and carries the
    single row made of the name of the draft and that URL. *)
Lemma handleSubmit_upload_inv
  (env : Env) (st : State)
  (bucket path : jsstring) (body : Blob)
  (answer : Promise (SupabaseResult unit)) :
  In (Call_upload bucket path body answer) (trace (handleSubmit env) st) ->
  exists image_uri,
    narrow (image st) = Some image_uri
    /\ Js.truthy (Js.trim (name st)) = true
    /\ bucket = js "form_images"
    /\ path = filePath (Date_now env) image_uri
    /\ answer = storage_upload env bucket path body
    /\ (forall bucket' path' url,
          In (Call_getPublicUrl bucket' path' url) (trace (handleSubmit env) st) ->
          bucket' = bucket /\ path' = path
          /\ url = storage_getPublicUrl env bucket path)
    /\ (failure_of answer = None ->
        In (Call_getPublicUrl bucket path (storage_getPublicUrl env bucket path))
           (trace (handleSubmit env) st)).
Proof.
  open_run (handleSubmit env) st c st' log H.
  intros Hin.
  exec H; in_log Hin; injection Hin as <- <- <- <-;
    match goal with
    | Hn : narrow _ = Some ?u |- _ => exists u
    end;
    (refine (conj _ (conj _ (conj _ (conj _ (conj _ (conj _ _))))));
    [ reflexivity
    | first [ reflexivity | apply negb_false_iff; assumption ]
    | reflexivity
    | reflexivity
    | congruence
    | intros b' p' u' Hev; in_log Hev;
      injection Hev as <- <- <-; repeat split
    | intros Hnone; cbn in Hnone;
      first [ congruence | cbn; tauto ] ]).
Qed.

Lemma handleSubmit_insert_inv
  (env : Env) (st : State)
  (table : jsstring) (rows : list NewRow.t)
  (answer : Promise (SupabaseResult unit)) :
  In (Call_insert table rows answer) (trace (handleSubmit env) st) ->
  exists image_uri body uploaded,
    narrow (image st) = Some image_uri
    /\ Js.truthy (Js.trim (name st)) = true
    /\ table = js "form_submissions"
    /\ rows = [ {| NewRow.name := name st;
                   NewRow.image_url :=
                     storage_getPublicUrl env (js "form_images")
                       (filePath (Date_now env) image_uri) |} ]
    /\ answer = from_insert env table rows
    /\ error uploaded = None
    /\ In (Call_upload (js "form_images") (filePath (Date_now env) image_uri)
             body (Resolved uploaded))
          (trace (handleSubmit env) st).
Proof.
  open_run (handleSubmit env) st c st' log H.
  intros Hin.
  exec H; in_log Hin; injection Hin as <- <- <-;
    match goal with
    | Hn : narrow _ = Some ?u, Hu : storage_upload _ _ _ ?b = Resolved ?r |- _ =>
        exists u, b, r
    end;
    (refine (conj _ (conj _ (conj _ (conj _ (conj _ (conj _ _))))));
     [ reflexivity
     | first [ reflexivity | apply negb_false_iff; assumption ]
     | reflexivity
     | reflexivity
     | congruence
     | assumption
     | cbn; tauto ]).
Qed.

(** C3: in a submission where the upload succeeds and the insert
    succeeds, the handler ends with the name reset to the empty string,
    the image reference reset to none and [uploading] false; the success
    notice is shown and is directly followed in the log by the query of
    [fetchSubmissions]. *)
Theorem handleSubmit_success_clears_draft
  (env : Env) (st : State)
  (bucket path : jsstring) (body : Blob)
  (uploaded : Promise (SupabaseResult unit))
  (table : jsstring) (rows : list NewRow.t)
  (inserted : Promise (SupabaseResult unit)) :
  In (Call_upload bucket path body uploaded) (trace (handleSubmit env) st) ->
  failure_of uploaded = None ->
  In (Call_insert table rows inserted) (trace (handleSubmit env) st) ->
  failure_of inserted = None ->
  name (final (handleSubmit env) st) = []
  /\ image (final (handleSubmit env) st) = None
  /\ uploading (final (handleSubmit env) st) = false
  /\ exists before query after,
       trace (handleSubmit env) st =
         before
         ++ Alert_alert (js "Success") (js "Your information has been saved!")
         :: Call_select (js "form_submissions") (js "*") (js "created_at")
              false query
         :: after.
Proof.
  open_run (handleSubmit env) st c st' log H.
  intros Hup Hupok Hins Hinsok.
  exec H; in_log Hins; injection Hins as <- <- <-; cbn in Hinsok;
    try congruence;
    (split; [reflexivity|]); (split; [reflexivity|]); (split; [reflexivity|]);
    refine (ex_intro _ [_; _; _; _] _); cbn [app];
    do 2 eexists; reflexivity.
Qed.

Lemma handleSubmit_success_clears_draft_witness :
  let path := js "1700000000000.jpg" in
  let body := {| size := 2000000 |} in
  let uploaded : Promise (SupabaseResult unit) :=
    Resolved {| data := Some tt; error := None |} in
  let rows := [ {| NewRow.name := js "Alice";
                   NewRow.image_url := example_url (js "form_images") path |} ] in
  let inserted : Promise (SupabaseResult unit) :=
    Resolved {| data := None; error := None |} in
  In (Call_upload (js "form_images") path body uploaded)
     (trace (handleSubmit env_ok) draft_alice)
  /\ failure_of uploaded = None
  /\ In (Call_insert (js "form_submissions") rows inserted)
        (trace (handleSubmit env_ok) draft_alice)
  /\ failure_of inserted = None
  /\ (name (final (handleSubmit env_ok) draft_alice) = []
      /\ image (final (handleSubmit env_ok) draft_alice) = None
      /\ uploading (final (handleSubmit env_ok) draft_alice) = false
      /\ exists before query after,
           trace (handleSubmit env_ok) draft_alice =
             before
             ++ Alert_alert (js "Success")
                  (js "Your information has been saved!")
             :: Call_select (js "form_submissions") (js "*")
                  (js "created_at") false query
             :: after).
Proof.
  intros path body uploaded rows inserted.
  assert (Hup : In (Call_upload (js "form_images") path body uploaded)
                   (trace (handleSubmit env_ok) draft_alice))
    by by_evaluation.
  assert (Hins : In (Call_insert (js "form_submissions") rows inserted)
                    (trace (handleSubmit env_ok) draft_alice))
    by by_evaluation.
  exact (conj Hup (conj eq_refl (conj Hins (conj eq_refl
           (handleSubmit_success_clears_draft env_ok draft_alice
              _ _ _ _ _ _ _ Hup eq_refl Hins eq_refl))))).
Defined.

(** The scenario of the specification, run to its end: the list held
    afterwards is the one the backend returned. *)
Example handleSubmit_scenario :
  run (handleSubmit env_ok) draft_alice
  = (Normal tt,
     ({| name := []; image := None; uploading := false;
         submissions := [alice; bob; bob];
         loadingSubmissions := false; refreshing := false;
         isConnected := true |},
      [ Call_fetch photo_uri (fetch env_ok photo_uri);
        Call_upload (js "form_images") (js "1700000000000.jpg")
          {| size := 2000000 |}
          (Resolved {| data := Some tt; error := None |});
        Call_getPublicUrl (js "form_images") (js "1700000000000.jpg")
          (example_url (js "form_images") (js "1700000000000.jpg"));
        Call_insert (js "form_submissions")
          [ {| NewRow.name := js "Alice";
               NewRow.image_url :=
                 example_url (js "form_images") (js "1700000000000.jpg") |} ]
          (Resolved {| data := None; error := None |});
        Alert_alert (js "Success") (js "Your information has been saved!");
        Call_select (js "form_submissions") (js "*") (js "created_at") false
          (Resolved {| data := Some [alice; bob; bob]; error := None |}) ])).
Proof. reflexivity. Qed.

(** C4: in a submission where the upload succeeds and the insert ends
    with an error, the state after the handler is the state at submit
    time with [uploading] false: name and image reference are the ones
    submitted; the log ends with the error written to the console and an
    alert carrying the error's message (or the fallback text), and no
    success notice is shown. *)
Theorem handleSubmit_insert_error_keeps_draft
  (env : Env) (st : State)
  (bucket path : jsstring) (body : Blob)
  (uploaded : Promise (SupabaseResult unit))
  (table : jsstring) (rows : list NewRow.t)
  (inserted : Promise (SupabaseResult unit)) (e : JsError) :
  In (Call_upload bucket path body uploaded) (trace (handleSubmit env) st) ->
  failure_of uploaded = None ->
  In (Call_insert table rows inserted) (trace (handleSubmit env) st) ->
  failure_of inserted = Some e ->
  name (final (handleSubmit env) st) = name st
  /\ image (final (handleSubmit env) st) = image st
  /\ final (handleSubmit env) st = with_uploading false st
  /\ (exists before,
        trace (handleSubmit env) st =
          before
          ++ [ Call_insert table rows inserted;
               console_error (js "Error submitting form:") e;
               Alert_alert (js "Error")
                 (message_or e
                    (js "Something went wrong while submitting your form")) ])
  /\ ~ In (Alert_alert (js "Success") (js "Your information has been saved!"))
          (trace (handleSubmit env) st).
Proof.
  open_run (handleSubmit env) st c st' log H.
  intros Hup Hupok Hins Hinsok.
  exec H; in_log Hins; injection Hins as <- <- <-;
    try (cbn in Hinsok; congruence);
    same_error Hinsok;
    (split; [reflexivity|]); (split; [reflexivity|]); (split; [reflexivity|]);
    (split;
     [ refine (ex_intro _ [_; _; _] _); reflexivity
     | intros Hs; in_log Hs ]).
Qed.

Lemma handleSubmit_insert_error_keeps_draft_witness :
  let path := js "1700000000000.jpg" in
  let body := {| size := 2000000 |} in
  let uploaded : Promise (SupabaseResult unit) :=
    Resolved {| data := Some tt; error := None |} in
  let rows := [ {| NewRow.name := js "Alice";
                   NewRow.image_url := example_url (js "form_images") path |} ] in
  let inserted : Promise (SupabaseResult unit) :=
    Resolved {| data := None; error := Some duplicate_key |} in
  let st := draft_alice in
  In (Call_upload (js "form_images") path body uploaded)
     (trace (handleSubmit env_insert_fails) st)
  /\ failure_of uploaded = None
  /\ In (Call_insert (js "form_submissions") rows inserted)
        (trace (handleSubmit env_insert_fails) st)
  /\ failure_of inserted = Some duplicate_key
  /\ (name (final (handleSubmit env_insert_fails) st) = name st
      /\ image (final (handleSubmit env_insert_fails) st) = image st
      /\ final (handleSubmit env_insert_fails) st = with_uploading false st
      /\ (exists before,
            trace (handleSubmit env_insert_fails) st =
              before
              ++ [ Call_insert (js "form_submissions") rows inserted;
                   console_error (js "Error submitting form:") duplicate_key;
                   Alert_alert (js "Error")
                     (message_or duplicate_key
                        (js "Something went wrong while submitting your form")) ])
      /\ ~ In (Alert_alert (js "Success")
                 (js "Your information has been saved!"))
              (trace (handleSubmit env_insert_fails) st)).
Proof.
  intros path body uploaded rows inserted st.
  assert (Hup : In (Call_upload (js "form_images") path body uploaded)
                   (trace (handleSubmit env_insert_fails) st))
    by by_evaluation.
  assert (Hins : In (Call_insert (js "form_submissions") rows inserted)
                    (trace (handleSubmit env_insert_fails) st))
    by by_evaluation.
  exact (conj Hup (conj eq_refl (conj Hins (conj eq_refl
           (handleSubmit_insert_error_keeps_draft env_insert_fails st
              _ _ _ _ _ _ _ _ Hup eq_refl Hins eq_refl))))).
Defined.

Lemma narrow_some (i : option jsstring) (u : jsstring) :
  narrow i = Some u -> i = Some u /\ u <> [].
Proof.
  destruct i as [v|]; cbn; [|discriminate].
  destruct v; cbn; [discriminate|].
  intros [= <-]. split; [reflexivity|discriminate].
Qed.

(** C7: the storage key of an upload is the decimal rendering of
    [Date.now()], a dot, and the extension of the selected image URI,
    the extension being the substring of the URI after its last ['.'];
    every retrieval of a public URL in the same submission names this
    very key (and bucket), and one is made as soon as the upload
    succeeds. *)
Theorem handleSubmit_storage_key
  (env : Env) (st : State)
  (bucket path : jsstring) (body : Blob)
  (answer : Promise (SupabaseResult unit)) :
  In (Call_upload bucket path body answer) (trace (handleSubmit env) st) ->
  exists image_uri,
    image st = Some image_uri
    /\ path = Js.ofNumber (Date_now env) ++ js "."
              ++ extension_after_last_dot image_uri
    /\ (forall pre ext,
          image_uri = pre ++ dot :: ext -> ~ In dot ext ->
          path = Js.ofNumber (Date_now env) ++ js "." ++ ext)
    /\ (forall bucket' path' url,
          In (Call_getPublicUrl bucket' path' url) (trace (handleSubmit env) st) ->
          bucket' = bucket /\ path' = path)
    /\ (failure_of answer = None ->
        exists url,
          In (Call_getPublicUrl bucket path url) (trace (handleSubmit env) st)).
Proof.
  intros Hin.
  destruct (handleSubmit_upload_inv env st bucket path body answer Hin)
    as (image_uri & Hnarrow & _ & _ & Hpath & _ & Hsame & Hurl).
  apply narrow_some in Hnarrow. destruct Hnarrow as [Himage _].
  exists image_uri. split; [exact Himage|].
  split.
  { rewrite Hpath. unfold filePath, extension_after_last_dot.
    rewrite fileExt_substring. reflexivity. }
  split.
  { intros pre ext -> Hext. rewrite Hpath. unfold filePath.
    rewrite fileExt_after_last_dot by exact Hext. reflexivity. }
  split.
  { intros bucket' path' url Hev.
    destruct (Hsame bucket' path' url Hev) as (Hb & Hp & _). auto. }
  intros Hok. eexists. exact (Hurl Hok).
Qed.

Lemma handleSubmit_storage_key_witness :
  let bucket := js "form_images" in
  let path := js "1700000000000.jpg" in
  let body := {| size := 2000000 |} in
  let answer : Promise (SupabaseResult unit) :=
    Resolved {| data := Some tt; error := None |} in
  In (Call_upload bucket path body answer)
     (trace (handleSubmit env_ok) draft_alice)
  /\ exists image_uri,
       image draft_alice = Some image_uri
       /\ path = Js.ofNumber (Date_now env_ok) ++ js "."
                 ++ extension_after_last_dot image_uri
       /\ (forall pre ext,
             image_uri = pre ++ dot :: ext -> ~ In dot ext ->
             path = Js.ofNumber (Date_now env_ok) ++ js "." ++ ext)
       /\ (forall bucket' path' url,
             In (Call_getPublicUrl bucket' path' url)
                (trace (handleSubmit env_ok) draft_alice) ->
             bucket' = bucket /\ path' = path)
       /\ (failure_of answer = None ->
           exists url,
             In (Call_getPublicUrl bucket path url)
                (trace (handleSubmit env_ok) draft_alice)).
Proof.
  intros bucket path body answer.
  assert (Hin : In (Call_upload bucket path body answer)
                   (trace (handleSubmit env_ok) draft_alice))
    by by_evaluation.
  exact (conj Hin
           (handleSubmit_storage_key env_ok draft_alice
              bucket path body answer Hin)).
Defined.

(** The key of the specification's scenario. *)
Example filePath_jpg :
  filePath 1700000000000 photo_uri = js "1700000000000.jpg".
Proof. reflexivity. Qed.

(** Only the part after the last dot counts. *)
Example filePath_two_dots :
  filePath 1700000000000 (js "file:///cache/holiday.2023/beach.final.png")
  = js "1700000000000.png".
Proof. reflexivity. Qed.

(** A URI without any dot is spliced whole after the dot of the key. *)
Lemma filePath_no_dot (now : Z) (image_uri : jsstring) :
  ~ In dot image_uri ->
  filePath now image_uri = Js.ofNumber now ++ js "." ++ image_uri.
Proof.
  intros H. unfold filePath. rewrite fileExt_no_dot by exact H. reflexivity.
Qed.

Lemma filePath_no_dot_witness :
  ~ In dot (js "content://media/external/images/media/42")
  /\ filePath 1700000000000 (js "content://media/external/images/media/42")
     = js "1700000000000.content://media/external/images/media/42".
Proof.
  assert (H : ~ In dot (js "content://media/external/images/media/42")).
  { vm_compute. intros F.
    repeat match type of F with
           | _ \/ _ => destruct F as [F | F]
           end; solve [discriminate F | contradiction]. }
  exact (conj H (filePath_no_dot 1700000000000 _ H)).
Defined.

(** C8: every record handed to the insert call has a non-empty name,
    one that passed the [name.trim()] guard, and has for [image_url] the
    public URL the object store returned for the key under which the
    image was uploaded just before; that URL is non-empty as soon as the
    store never returns an empty public URL. *)
Theorem handleSubmit_inserted_row_nonempty
  (env : Env) (st : State)
  (table : jsstring) (rows : list NewRow.t)
  (answer : Promise (SupabaseResult unit)) :
  public_urls_nonempty env ->
  In (Call_insert table rows answer) (trace (handleSubmit env) st) ->
  exists row path body uploaded,
    rows = [row]
    /\ NewRow.name row <> []
    /\ Js.trim (NewRow.name row) <> []
    /\ NewRow.image_url row <> []
    /\ NewRow.image_url row = storage_getPublicUrl env (js "form_images") path
    /\ In (Call_upload (js "form_images") path body (Resolved uploaded))
          (trace (handleSubmit env) st)
    /\ error uploaded = None.
Proof.
  intros Hstore Hin.
  destruct (handleSubmit_insert_inv env st table rows answer Hin)
    as (image_uri & body & uploaded
        & _ & Hname & _ & Hrows & _ & Hok & Hup).
  eexists _, (filePath (Date_now env) image_uri), body, uploaded.
  split; [exact Hrows|]. cbn [NewRow.name NewRow.image_url].
  split; [apply trim_truthy_nonempty; exact Hname|].
  split; [intros Hnil; rewrite Hnil in Hname; discriminate|].
  split; [apply Hstore|].
  split; [reflexivity|].
  split; assumption.
Qed.

Lemma example_url_nonempty : public_urls_nonempty env_ok.
Proof. intros bucket path. vm_compute. discriminate. Qed.

Lemma handleSubmit_inserted_row_nonempty_witness :
  let rows := [ {| NewRow.name := js "Alice";
                   NewRow.image_url :=
                     example_url (js "form_images") (js "1700000000000.jpg") |} ] in
  let answer : Promise (SupabaseResult unit) :=
    Resolved {| data := None; error := None |} in
  public_urls_nonempty env_ok
  /\ In (Call_insert (js "form_submissions") rows answer)
        (trace (handleSubmit env_ok) draft_alice)
  /\ exists row path body uploaded,
       rows = [row]
       /\ NewRow.name row <> []
       /\ Js.trim (NewRow.name row) <> []
       /\ NewRow.image_url row <> []
       /\ NewRow.image_url row
          = storage_getPublicUrl env_ok (js "form_images") path
       /\ In (Call_upload (js "form_images") path body (Resolved uploaded))
             (trace (handleSubmit env_ok) draft_alice)
       /\ error uploaded = None.
Proof.
  intros rows answer.
  assert (Hin : In (Call_insert (js "form_submissions") rows answer)
                   (trace (handleSubmit env_ok) draft_alice))
    by by_evaluation.
  exact (conj example_url_nonempty (conj Hin
           (handleSubmit_inserted_row_nonempty env_ok draft_alice
              _ rows answer example_url_nonempty Hin))).
Defined.

(** C10: the row handed to the insert call carries the name exactly as
    it stands in the state at submit time; the guard has only checked
    that its trimmed form is non-empty, so a name with white space at
    either end is inserted with that white space and differs from its
    trimmed form. *)
Theorem handleSubmit_inserts_raw_name
  (env : Env) (st : State)
  (table : jsstring) (rows : list NewRow.t)
  (answer : Promise (SupabaseResult unit)) :
  In (Call_insert table rows answer) (trace (handleSubmit env) st) ->
  exists row,
    rows = [row]
    /\ NewRow.name row = name st
    /\ Js.trim (name st) <> []
    /\ (Js.trim (name st) <> name st ->
        NewRow.name row <> Js.trim (name st)).
Proof.
  intros Hin.
  destruct (handleSubmit_insert_inv env st table rows answer Hin)
    as (image_uri & body & uploaded & _ & Hname & _ & Hrows & _).
  eexists. split; [exact Hrows|]. cbn [NewRow.name].
  split; [reflexivity|].
  split; [intros Hnil; rewrite Hnil in Hname; discriminate|].
  intros Hneq Heq. apply Hneq. symmetry. exact Heq.
Qed.

Lemma handleSubmit_inserts_raw_name_witness :
  let rows := [ {| NewRow.name := js "  Alice ";
                   NewRow.image_url :=
                     example_url (js "form_images") (js "1700000000000.jpg") |} ] in
  let answer : Promise (SupabaseResult unit) :=
    Resolved {| data := None; error := None |} in
  In (Call_insert (js "form_submissions") rows answer)
     (trace (handleSubmit env_ok) draft_padded)
  /\ Js.trim (name draft_padded) = js "Alice"
  /\ exists row,
       rows = [row]
       /\ NewRow.name row = name draft_padded
       /\ Js.trim (name draft_padded) <> []
       /\ (Js.trim (name draft_padded) <> name draft_padded ->
           NewRow.name row <> Js.trim (name draft_padded)).
Proof.
  intros rows answer.
  assert (Hin : In (Call_insert (js "form_submissions") rows answer)
                   (trace (handleSubmit env_ok) draft_padded))
    by by_evaluation.
  exact (conj Hin (conj eq_refl
           (handleSubmit_inserts_raw_name env_ok draft_padded
              _ rows answer Hin))).
Defined.

(* ===================================================================== *)
(** ** Further properties of [handleSubmit] *)
(* ===================================================================== *)

(** The three early returns, each as an equation on the run. *)
Lemma handleSubmit_run_blank_name (env : Env) (st : State) :
  Js.truthy (Js.trim (name st)) = false ->
  run (handleSubmit env) st = (Normal tt, (st, [name_alert])).
Proof.
  intros Hn. destruct st as [n i u s l r c]. cbn in Hn.
  unfold run, handleSubmit, async, bind, getState, when, emit, return_.
  cbn. rewrite Hn. reflexivity.
Qed.

Lemma handleSubmit_run_no_image (env : Env) (st : State) :
  Js.truthy (Js.trim (name st)) = true ->
  narrow (image st) = None ->
  run (handleSubmit env) st = (Normal tt, (st, [image_alert])).
Proof.
  intros Hn Hi. destruct st as [n i u s l r c]. cbn in Hn, Hi.
  unfold run, handleSubmit, async, bind, getState, when, emit, return_, ret.
  cbn. rewrite Hn. cbn. rewrite Hi. reflexivity.
Qed.

Lemma handleSubmit_run_offline (env : Env) (st : State) (image_uri : jsstring) :
  Js.truthy (Js.trim (name st)) = true ->
  narrow (image st) = Some image_uri ->
  isConnected st = false ->
  run (handleSubmit env) st = (Normal tt, (st, [network_alert])).
Proof.
  intros Hn Hi Hc. destruct st as [n i u s l r c]. cbn in Hn, Hi, Hc.
  unfold run, handleSubmit, async, bind, getState, when, emit, return_, ret.
  cbn. rewrite Hn. cbn. rewrite Hi, Hc. reflexivity.
Qed.

Lemma whitespace_only_truthy (s : jsstring) :
  whitespace_only s <-> Js.truthy (Js.trim s) = false.
Proof.
  rewrite <- negb_truthy_trim. apply negb_true_iff.
Qed.

(** X1: the guards of [handleSubmit] are tested in a fixed order and the
    first that fails decides the message: a blank name wins over a
    missing image and over being offline; a missing image (none, or the
    empty string) wins over being offline. In each case the handler
    logs that one alert and nothing else, and leaves the state as it
    was. *)
Theorem handleSubmit_guard_order (env : Env) (st : State) :
  (whitespace_only (name st) ->
   run (handleSubmit env) st = (Normal tt, (st, [name_alert])))
  /\ (~ whitespace_only (name st) ->
      image st = None \/ image st = Some [] ->
      run (handleSubmit env) st = (Normal tt, (st, [image_alert])))
  /\ (~ whitespace_only (name st) ->
      (exists image_uri, image st = Some image_uri /\ image_uri <> []) ->
      isConnected st = false ->
      run (handleSubmit env) st = (Normal tt, (st, [network_alert]))).
Proof.
  repeat split.
  - intros Hn. apply handleSubmit_run_blank_name, whitespace_only_truthy, Hn.
  - intros Hn Hi. apply handleSubmit_run_no_image.
    + rewrite whitespace_only_truthy in Hn.
      destruct (Js.truthy (Js.trim (name st))); congruence.
    + destruct Hi as [-> | ->]; reflexivity.
  - intros Hn (u & Hi & Hu) Hc. apply handleSubmit_run_offline with u.
    + rewrite whitespace_only_truthy in Hn.
      destruct (Js.truthy (Js.trim (name st))); congruence.
    + rewrite Hi. destruct u; [contradiction|reflexivity].
    + exact Hc.
Qed.

Lemma handleSubmit_guard_order_witness :
  let st := with_image (Some []) draft_alice in
  ~ whitespace_only (name st)
  /\ (image st = None \/ image st = Some [])
  /\ run (handleSubmit env_ok) st = (Normal tt, (st, [image_alert])).
Proof.
  intros st.
  assert (Hn : ~ whitespace_only (name st)) by (vm_compute; discriminate).
  assert (Hi : image st = None \/ image st = Some []) by (right; reflexivity).
  exact (conj Hn (conj Hi
           (proj1 (proj2 (handleSubmit_guard_order env_ok st)) Hn Hi))).
Defined.

(** X2: [handleSubmit] never rejects, and it never leaves the busy flag
    set: either it returned from a guard with the state untouched, or
    [uploading] is false when it ends, whatever failed in between. It
    never writes [isConnected] or [refreshing]. *)
Theorem handleSubmit_clears_uploading (env : Env) (st : State) :
  completion (handleSubmit env) st = Normal tt
  /\ (final (handleSubmit env) st = st
      \/ uploading (final (handleSubmit env) st) = false)
  /\ isConnected (final (handleSubmit env) st) = isConnected st
  /\ refreshing (final (handleSubmit env) st) = refreshing st.
Proof.
  open_run (handleSubmit env) st c st' log H.
  exec H; repeat split; try reflexivity;
    first [ left; reflexivity | right; reflexivity ].
Qed.

(** X3: the draft is cleared all or nothing. Unless the success notice
    is shown, name, image reference and submissions list are the ones
    held at submit time, whichever step failed; when it is shown, name
    and image reference are both reset. *)
Theorem handleSubmit_draft_all_or_nothing (env : Env) (st : State) :
  (~ In success_alert (trace (handleSubmit env) st)
   /\ name (final (handleSubmit env) st) = name st
   /\ image (final (handleSubmit env) st) = image st
   /\ submissions (final (handleSubmit env) st) = submissions st)
  \/ (In success_alert (trace (handleSubmit env) st)
      /\ name (final (handleSubmit env) st) = []
      /\ image (final (handleSubmit env) st) = None).
Proof.
  open_run (handleSubmit env) st c st' log H.
  exec H;
    first
      [ right; split; [cbn; tauto | split; reflexivity]
      | left; split; [intros F; in_log F | repeat split] ].
Qed.

(** X4: when the upload ends with an error (a non-null [error] or a
    rejected promise), nothing further is asked of the backend: the log
    is the local fetch, the upload, the console line and one alert
    carrying the store's message, or the fallback text when the error
    has no message; the state is the submitted one with [uploading]
    false. *)
Theorem handleSubmit_upload_error_stops
  (env : Env) (st : State)
  (bucket path : jsstring) (body : Blob)
  (uploaded : Promise (SupabaseResult unit)) (e : JsError) :
  In (Call_upload bucket path body uploaded) (trace (handleSubmit env) st) ->
  failure_of uploaded = Some e ->
  final (handleSubmit env) st = with_uploading false st
  /\ exists resource response,
       trace (handleSubmit env) st =
         [ Call_fetch resource response;
           Call_upload bucket path body uploaded;
           console_error (js "Error submitting form:") e;
           Alert_alert (js "Error")
             (message_or e
                (js "Something went wrong while submitting your form")) ].
Proof.
  open_run (handleSubmit env) st c st' log H.
  intros Hup Hfail.
  exec H; in_log Hup; injection Hup as <- <- <- <-;
    try (cbn in Hfail; congruence);
    same_error Hfail;
    (split; [reflexivity | do 2 eexists; reflexivity]).
Qed.

Lemma handleSubmit_upload_error_stops_witness :
  let uploaded : Promise (SupabaseResult unit) :=
    Resolved {| data := None; error := Some bucket_missing |} in
  let body := {| size := 2000000 |} in
  In (Call_upload (js "form_images") (js "1700000000000.jpg") body uploaded)
     (trace (handleSubmit env_upload_fails) draft_alice)
  /\ failure_of uploaded = Some bucket_missing
  /\ (final (handleSubmit env_upload_fails) draft_alice
      = with_uploading false draft_alice
      /\ exists resource response,
           trace (handleSubmit env_upload_fails) draft_alice =
             [ Call_fetch resource response;
               Call_upload (js "form_images") (js "1700000000000.jpg")
                 body uploaded;
               console_error (js "Error submitting form:") bucket_missing;
               Alert_alert (js "Error")
                 (message_or bucket_missing
                    (js "Something went wrong while submitting your form")) ]).
Proof.
  intros uploaded body.
  assert (Hin : In (Call_upload (js "form_images") (js "1700000000000.jpg")
                      body uploaded)
                   (trace (handleSubmit env_upload_fails) draft_alice))
    by by_evaluation.
  exact (conj Hin (conj eq_refl
           (handleSubmit_upload_error_stops env_upload_fails draft_alice
              _ _ _ _ _ Hin eq_refl))).
Defined.

(** X5: when the local fetch of the image resolves to a response that is
    not [ok], the blob is not read and nothing is sent to the backend:
    the log is the fetch, the console line and an alert whose text is
    [Failed to fetch image: ] followed by the status in decimal; the
    state is the submitted one with [uploading] false. *)
Theorem handleSubmit_fetch_not_ok
  (env : Env) (st : State) (resource : jsstring) (response : Response) :
  In (Call_fetch resource (Resolved response)) (trace (handleSubmit env) st) ->
  ok response = false ->
  let text := js "Failed to fetch image: " ++ Js.ofNumber (status response) in
  trace (handleSubmit env) st =
    [ Call_fetch resource (Resolved response);
      console_error (js "Error submitting form:") (new_Error text);
      Alert_alert (js "Error") text ]
  /\ final (handleSubmit env) st = with_uploading false st.
Proof.
  open_run (handleSubmit env) st c st' log H.
  intros Hin Hok.
  exec H; in_log Hin; injection Hin as <- <-;
    try (rewrite Hok in *; discriminate).
  split; reflexivity.
Qed.

Lemma handleSubmit_fetch_not_ok_witness :
  let response :=
    {| ok := false; status := 404; blob := Rejected {| message := None |} |} in
  In (Call_fetch photo_uri (Resolved response))
     (trace (handleSubmit env_not_found) draft_alice)
  /\ ok response = false
  /\ (trace (handleSubmit env_not_found) draft_alice =
        [ Call_fetch photo_uri (Resolved response);
          console_error (js "Error submitting form:")
            (new_Error (js "Failed to fetch image: 404"));
          Alert_alert (js "Error") (js "Failed to fetch image: 404") ]
      /\ final (handleSubmit env_not_found) draft_alice
         = with_uploading false draft_alice).
Proof.
  intros response.
  assert (Hin : In (Call_fetch photo_uri (Resolved response))
                   (trace (handleSubmit env_not_found) draft_alice))
    by by_evaluation.
  exact (conj Hin (conj eq_refl
           (handleSubmit_fetch_not_ok env_not_found draft_alice
              photo_uri response Hin eq_refl))).
Defined.

(** X6: no blob larger than 5,242,880 bytes is ever handed to the store.
    An upload in the log is directly preceded by the local fetch of the
    image of the draft, whose response was [ok] and whose blob is the
    body uploaded; nothing else precedes it. *)
Theorem handleSubmit_upload_within_limit
  (env : Env) (st : State)
  (bucket path : jsstring) (body : Blob)
  (uploaded : Promise (SupabaseResult unit)) :
  In (Call_upload bucket path body uploaded) (trace (handleSubmit env) st) ->
  size body <= size_limit
  /\ exists image_uri response after,
       image st = Some image_uri
       /\ ok response = true
       /\ blob response = Resolved body
       /\ trace (handleSubmit env) st =
            Call_fetch image_uri (Resolved response)
            :: Call_upload bucket path body uploaded
            :: after
       /\ forall ev, In ev after -> is_upload ev = false.
Proof.
  open_run (handleSubmit env) st c st' log H.
  intros Hup.
  exec H; in_log Hup; injection Hup as <- <- <- <-;
    match goal with
    | Hs : (size _ >? _) = false |- _ =>
        rewrite Z.gtb_ltb in Hs; apply Z.ltb_ge in Hs
    end;
    match goal with
    | Hn : narrow (image _) = Some _ |- _ =>
        apply narrow_some in Hn; destruct Hn as [Hn _]
    end;
    match goal with
    | Hk : negb (ok _) = false |- _ => apply negb_false_iff in Hk
    end;
    (split; [unfold size_limit; lia|]);
    do 3 eexists;
    (split; [eassumption|]); (split; [eassumption|]);
    (split; [eassumption|]); (split; [reflexivity|]);
    intros ev Hev; in_log Hev; subst ev; reflexivity.
Qed.

Lemma handleSubmit_upload_within_limit_witness :
  let body := {| size := 5242880 |} in
  let uploaded : Promise (SupabaseResult unit) :=
    Resolved {| data := Some tt; error := None |} in
  let env := example_env 5242880 None None picked_photo in
  In (Call_upload (js "form_images") (js "1700000000000.jpg") body uploaded)
     (trace (handleSubmit env) draft_alice)
  /\ (size body <= size_limit
      /\ exists image_uri response after,
           image draft_alice = Some image_uri
           /\ ok response = true
           /\ blob response = Resolved body
           /\ trace (handleSubmit env) draft_alice =
                Call_fetch image_uri (Resolved response)
                :: Call_upload (js "form_images") (js "1700000000000.jpg")
                     body uploaded
                :: after
           /\ forall ev, In ev after -> is_upload ev = false).
Proof.
  intros body uploaded env.
  assert (Hin : In (Call_upload (js "form_images") (js "1700000000000.jpg")
                      body uploaded)
                   (trace (handleSubmit env) draft_alice))
    by by_evaluation.
  exact (conj Hin
           (handleSubmit_upload_within_limit env draft_alice
              _ _ _ _ Hin)).
Defined.

(** X7: the size ceiling is inclusive. When the fetched response is [ok]
    and its blob has at most 5,242,880 bytes, the blob is uploaded to
    the bucket [form_images] under [filePath] of the clock and the
    fetched URI. *)
Theorem handleSubmit_uploads_within_limit
  (env : Env) (st : State)
  (resource : jsstring) (response : Response) (body : Blob) :
  In (Call_fetch resource (Resolved response)) (trace (handleSubmit env) st) ->
  ok response = true ->
  blob response = Resolved body ->
  size body <= size_limit ->
  let path := filePath (Date_now env) resource in
  In (Call_upload (js "form_images") path body
        (storage_upload env (js "form_images") path body))
     (trace (handleSubmit env) st).
Proof.
  open_run (handleSubmit env) st c st' log H.
  intros Hin Hok Hblob Hsize.
  assert (Hle : forall b, blob response = Resolved b ->
                          (size b >? 5 * 1024 * 1024) = false).
  { intros b Hb. assert (b = body) by congruence. subst b.
    unfold size_limit in Hsize. rewrite Z.gtb_ltb. apply Z.ltb_ge. lia. }
  exec H; in_log Hin; injection Hin as <- <-;
    try (rewrite Hok in *; discriminate);
    try congruence;
    try match goal with
        | Hb : blob _ = Resolved ?b, Hs : (size ?b >? _) = true |- _ =>
            rewrite (Hle b Hb) in Hs; discriminate Hs
        end;
    match goal with
    | Hb : blob _ = Resolved _ |- _ =>
        rewrite Hblob in Hb; injection Hb as <-
    end;
    try match goal with
        | Hu : storage_upload _ _ _ _ = _ |- _ => rewrite Hu
        end;
    cbn; tauto.
Qed.

Lemma handleSubmit_uploads_within_limit_witness :
  let env := example_env 5242880 None None picked_photo in
  let body := {| size := 5242880 |} in
  let response := {| ok := true; status := 200; blob := Resolved body |} in
  In (Call_fetch photo_uri (Resolved response))
     (trace (handleSubmit env) draft_alice)
  /\ size body <= size_limit
  /\ In (Call_upload (js "form_images") (filePath (Date_now env) photo_uri) body
           (storage_upload env (js "form_images")
              (filePath (Date_now env) photo_uri) body))
        (trace (handleSubmit env) draft_alice).
Proof.
  intros env body response.
  assert (Hin : In (Call_fetch photo_uri (Resolved response))
                   (trace (handleSubmit env) draft_alice))
    by by_evaluation.
  assert (Hsize : size body <= size_limit) by (vm_compute; discriminate).
  exact (conj Hin (conj Hsize
           (handleSubmit_uploads_within_limit env draft_alice
              photo_uri response body Hin eq_refl eq_refl Hsize))).
Defined.

(** X8: when the local fetch rejects, or when reading the blob of an
    [ok] response rejects, the rejection is caught: nothing is sent to
    the backend, the log is the fetch, the console line and one alert
    with the error's message or the fallback text, and the state is the
    submitted one with [uploading] false. *)
Theorem handleSubmit_fetch_rejected
  (env : Env) (st : State)
  (resource : jsstring) (answer : Promise Response) (e : JsError) :
  In (Call_fetch resource answer) (trace (handleSubmit env) st) ->
  answer = Rejected e
  \/ (exists response,
        answer = Resolved response /\ ok response = true
        /\ blob response = Rejected e) ->
  trace (handleSubmit env) st =
    [ Call_fetch resource answer;
      console_error (js "Error submitting form:") e;
      Alert_alert (js "Error")
        (message_or e (js "Something went wrong while submitting your form")) ]
  /\ final (handleSubmit env) st = with_uploading false st.
Proof.
  open_run (handleSubmit env) st c st' log H.
  intros Hin Hcase.
  exec H; in_log Hin; injection Hin as <- <-;
    (destruct Hcase as [Hrej | (response & Hres & Hok & Hblob)];
     [ try discriminate Hrej; try (injection Hrej as <-; split; reflexivity)
     | try discriminate Hres; injection Hres as <-;
       try (rewrite Hok in *; discriminate);
       try congruence;
       match goal with
       | Hb : blob _ = Rejected _ |- _ =>
           rewrite Hblob in Hb; injection Hb as <-
       end;
       split; reflexivity ]).
Qed.

Lemma handleSubmit_fetch_rejected_witness :
  In (Call_fetch photo_uri (Rejected unreadable))
     (trace (handleSubmit env_unreadable) draft_alice)
  /\ (trace (handleSubmit env_unreadable) draft_alice =
        [ Call_fetch photo_uri (Rejected unreadable);
          console_error (js "Error submitting form:") unreadable;
          Alert_alert (js "Error")
            (message_or unreadable
               (js "Something went wrong while submitting your form")) ]
      /\ final (handleSubmit env_unreadable) draft_alice
         = with_uploading false draft_alice).
Proof.
  assert (Hin : In (Call_fetch photo_uri (Rejected unreadable))
                   (trace (handleSubmit env_unreadable) draft_alice))
    by by_evaluation.
  exact (conj Hin
           (handleSubmit_fetch_rejected env_unreadable draft_alice
              photo_uri _ unreadable Hin (or_introl eq_refl))).
Defined.

(** X9: one submission makes one upload and one insert, in a fixed
    order. A log that holds an insert begins with the local fetch, the
    upload, the retrieval of the public URL and that insert, and no
    fetch, upload, URL retrieval or insert comes after it. *)
Theorem handleSubmit_call_order
  (env : Env) (st : State)
  (table : jsstring) (rows : list NewRow.t)
  (inserted : Promise (SupabaseResult unit)) :
  In (Call_insert table rows inserted) (trace (handleSubmit env) st) ->
  exists image_uri response body uploaded url after,
    trace (handleSubmit env) st =
      Call_fetch image_uri (Resolved response)
      :: Call_upload (js "form_images") (filePath (Date_now env) image_uri)
           body (Resolved uploaded)
      :: Call_getPublicUrl (js "form_images")
           (filePath (Date_now env) image_uri) url
      :: Call_insert table rows inserted
      :: after
    /\ forall ev, In ev after ->
         match ev with
         | Call_fetch _ _ | Call_upload _ _ _ _
         | Call_getPublicUrl _ _ _ | Call_insert _ _ _ => False
         | _ => True
         end.
Proof.
  open_run (handleSubmit env) st c st' log H.
  intros Hin.
  exec H; in_log Hin; injection Hin as <- <- <-;
    do 6 eexists;
    (split; [reflexivity|]);
    intros ev Hev; in_log Hev; subst ev; exact I.
Qed.

Lemma handleSubmit_call_order_witness :
  let rows := [ {| NewRow.name := js "Alice";
                   NewRow.image_url :=
                     example_url (js "form_images") (js "1700000000000.jpg") |} ] in
  let inserted : Promise (SupabaseResult unit) :=
    Resolved {| data := None; error := None |} in
  In (Call_insert (js "form_submissions") rows inserted)
     (trace (handleSubmit env_ok) draft_alice)
  /\ exists image_uri response body uploaded url after,
       trace (handleSubmit env_ok) draft_alice =
         Call_fetch image_uri (Resolved response)
         :: Call_upload (js "form_images")
              (filePath (Date_now env_ok) image_uri) body (Resolved uploaded)
         :: Call_getPublicUrl (js "form_images")
              (filePath (Date_now env_ok) image_uri) url
         :: Call_insert (js "form_submissions") rows inserted
         :: after
       /\ forall ev, In ev after ->
            match ev with
            | Call_fetch _ _ | Call_upload _ _ _ _
            | Call_getPublicUrl _ _ _ | Call_insert _ _ _ => False
            | _ => True
            end.
Proof.
  intros rows inserted.
  assert (Hin : In (Call_insert (js "form_submissions") rows inserted)
                   (trace (handleSubmit env_ok) draft_alice))
    by by_evaluation.
  exact (conj Hin
           (handleSubmit_call_order env_ok draft_alice _ rows inserted Hin)).
Defined.

(** X10: after a successful submission the draft is empty, so submitting
    again without new input sends nothing: against any collaborators,
    the second run stops at the name guard with the state unchanged. *)
Theorem handleSubmit_twice (env env' : Env) (st : State) :
  In success_alert (trace (handleSubmit env) st) ->
  run (handleSubmit env') (final (handleSubmit env) st)
  = (Normal tt, (final (handleSubmit env) st, [name_alert])).
Proof.
  open_run (handleSubmit env) st c st' log H.
  intros Hin.
  exec H; in_log Hin;
    apply handleSubmit_run_blank_name; reflexivity.
Qed.

Lemma handleSubmit_twice_witness :
  In success_alert (trace (handleSubmit env_ok) draft_alice)
  /\ run (handleSubmit env_ok) (final (handleSubmit env_ok) draft_alice)
     = (Normal tt, (final (handleSubmit env_ok) draft_alice, [name_alert])).
Proof.
  assert (Hin : In success_alert (trace (handleSubmit env_ok) draft_alice))
    by by_evaluation.
  exact (conj Hin (handleSubmit_twice env_ok env_ok draft_alice Hin)).
Defined.

(** X11: with the submit control enabled ([disabled] false), the image
    guard cannot be what stops [handleSubmit]: the run is the name alert
    alone (a name of white space only passes [!name]), or the network
    alert alone, or it begins with the local fetch of the selected
    image. *)
Theorem handleSubmit_when_enabled (env : Env) (st : State) :
  submitDisabled st = false ->
  uploading st = false
  /\ name st <> []
  /\ (trace (handleSubmit env) st = [name_alert]
      \/ trace (handleSubmit env) st = [network_alert]
      \/ exists image_uri answer rest,
           image st = Some image_uri
           /\ trace (handleSubmit env) st
              = Call_fetch image_uri answer :: rest).
Proof.
  unfold submitDisabled. intros Hd.
  apply orb_false_iff in Hd. destruct Hd as [Hd Himg].
  apply orb_false_iff in Hd. destruct Hd as [Hup Hname].
  apply negb_false_iff in Hname.
  split; [exact Hup|].
  split; [intros Hnil; rewrite Hnil in Hname; discriminate|].
  destruct (narrow (image st)) as [u|] eqn:Hn; [clear Himg|discriminate].
  pose proof (narrow_some _ _ Hn) as [Hi _].
  revert Hn. open_run (handleSubmit env) st c st' log H. intros Hn.
  exec H; try congruence; try (injection Hn as ->);
    first
      [ left; reflexivity
      | right; left; reflexivity
      | right; right; do 3 eexists; split; [exact Hi | reflexivity] ].
Qed.

Lemma handleSubmit_when_enabled_witness :
  let st := draft (js "   ") in
  submitDisabled st = false
  /\ whitespace_only (name st)
  /\ trace (handleSubmit env_ok) st = [name_alert]
  /\ (uploading st = false
      /\ name st <> []
      /\ (trace (handleSubmit env_ok) st = [name_alert]
          \/ trace (handleSubmit env_ok) st = [network_alert]
          \/ exists image_uri answer rest,
               image st = Some image_uri
               /\ trace (handleSubmit env_ok) st
                  = Call_fetch image_uri answer :: rest)).
Proof.
  intros st.
  exact (conj eq_refl (conj eq_refl (conj eq_refl
           (handleSubmit_when_enabled env_ok st eq_refl)))).
Defined.

(* ===================================================================== *)
(** ** Further properties of [fetchSubmissions] and [onRefresh] *)
(* ===================================================================== *)

(** X12: every call of [fetchSubmissions] resolves, issues exactly one
    request to the backend (the ordered query, first in the log), ends
    with [loadingSubmissions] false, so that the list area no longer
    shows the activity indicator, and writes no state cell other than
    [submissions] and [loadingSubmissions]. *)
Theorem fetchSubmissions_frame (env : Env) (st : State) :
  completion (fetchSubmissions env) st = Normal tt
  /\ loadingSubmissions (final (fetchSubmissions env) st) = false
  /\ submissionsList (final (fetchSubmissions env) st) <> ActivityIndicator
  /\ final (fetchSubmissions env) st
     = with_loadingSubmissions false
         (with_submissions (submissions (final (fetchSubmissions env) st)) st)
  /\ exists rest,
       trace (fetchSubmissions env) st =
         Call_select (js "form_submissions") (js "*") (js "created_at") false
           (from_select_order env (js "form_submissions") (js "*")
              (js "created_at") false)
         :: rest
       /\ forall ev, In ev rest -> is_remote ev = false.
Proof.
  open_run (fetchSubmissions env) st c st' log H.
  exec H;
    (refine (conj _ (conj _ (conj _ (conj _ _))));
     [ reflexivity
     | reflexivity
     | unfold submissionsList; cbn;
       match goal with
       | |- context [if ?b then _ else _] => destruct b
       end; discriminate
     | reflexivity
     | eexists; split;
       [ reflexivity | intros ev Hev; in_log Hev; subst ev; reflexivity ] ]).
Qed.

(** X13: a query that resolves with neither an error nor data leaves the
    list as it was and shows nothing: the log is the query alone. *)
Theorem fetchSubmissions_no_data
  (env : Env) (st : State)
  (table columns orderBy : jsstring) (ascending : bool)
  (r : SupabaseResult (list Submission.t)) :
  In (Call_select table columns orderBy ascending (Resolved r))
     (trace (fetchSubmissions env) st) ->
  error r = None ->
  data r = None ->
  run (fetchSubmissions env) st
  = (Normal tt,
     (with_loadingSubmissions false st,
      [ Call_select (js "form_submissions") (js "*") (js "created_at")
          false (Resolved r) ])).
Proof.
  unfold trace. destruct (run (fetchSubmissions env) st) as [c [st' log]] eqn:H.
  cbn [fst snd]. intros Hin Herr Hdata.
  exec H; in_log Hin; injection Hin as <- <- <- <- <-;
    try congruence; reflexivity.
Qed.

Lemma fetchSubmissions_no_data_witness :
  let st := with_submissions [bob] initialState in
  let r : SupabaseResult (list Submission.t) :=
    {| data := None; error := None |} in
  In (Call_select (js "form_submissions") (js "*") (js "created_at") false
        (Resolved r))
     (trace (fetchSubmissions env_no_data) st)
  /\ run (fetchSubmissions env_no_data) st
     = (Normal tt,
        (with_loadingSubmissions false st,
         [ Call_select (js "form_submissions") (js "*") (js "created_at")
             false (Resolved r) ])).
Proof.
  intros st r.
  assert (Hin : In (Call_select (js "form_submissions") (js "*")
                      (js "created_at") false (Resolved r))
                   (trace (fetchSubmissions env_no_data) st))
    by by_evaluation.
  exact (conj Hin
           (fetchSubmissions_no_data env_no_data st _ _ _ _ r
              Hin eq_refl eq_refl)).
Defined.

(** X14: fetching is a full replace, so fetching again against the same
    backend answer changes nothing more: the second call ends in the
    state the first one ended in, and logs what the first one logged. *)
Theorem fetchSubmissions_twice (env : Env) (st : State) :
  run (fetchSubmissions env) (final (fetchSubmissions env) st)
  = (Normal tt,
     (final (fetchSubmissions env) st, trace (fetchSubmissions env) st)).
Proof.
  unfold final, trace.
  destruct (run (fetchSubmissions env) st) as [c [st' log]] eqn:H.
  cbn [fst snd].
  destruct (run (fetchSubmissions env) st') as [c2 [st2 log2]] eqn:H2.
  exec H; exec H2; try congruence; try reflexivity;
    state_records; repeat f_equal; congruence.
Qed.

(** X15: pull-to-refresh is [fetchSubmissions] with the refresh
    indicator around it: [onRefresh] logs what [fetchSubmissions] logs
    and ends in the state [fetchSubmissions] ends in, with [refreshing]
    false, whether the query succeeded or not. *)
Theorem onRefresh_is_fetch (env : Env) (st : State) :
  run (onRefresh env) st
  = (Normal tt,
     (with_refreshing false (final (fetchSubmissions env) st),
      trace (fetchSubmissions env) st)).
Proof.
  unfold final, trace.
  destruct (run (fetchSubmissions env) st) as [c [st' log]] eqn:H.
  cbn [fst snd].
  destruct (run (onRefresh env) st) as [c2 [st2 log2]] eqn:H2.
  unfold onRefresh, then_, setRefreshing in H2.
  exec H; exec H2; try congruence; try reflexivity;
    state_records; repeat f_equal; congruence.
Qed.

(** X16: what the list area shows after a successful fetch of [R]: the
    text [No submissions yet] when [R] is empty, which is not the
    activity indicator of a fetch in progress, and otherwise one entry
    per record of [R], in the order of [R], keyed by [id]. *)
Theorem submissionsList_after_fetch
  (env : Env) (st : State)
  (table columns orderBy : jsstring) (ascending : bool)
  (r : SupabaseResult (list Submission.t)) (R : list Submission.t) :
  In (Call_select table columns orderBy ascending (Resolved r))
     (trace (fetchSubmissions env) st) ->
  error r = None ->
  data r = Some R ->
  submissionsList (final (fetchSubmissions env) st)
  = match R with
    | [] => EmptyText (js "No submissions yet")
    | _ :: _ => Items (map submissionItem R)
    end
  /\ (forall items,
        submissionsList (final (fetchSubmissions env) st) = Items items ->
        map item_key items = map Submission.id R
        /\ map item_text items = map Submission.name R
        /\ map item_source items = map Submission.image_url R).
Proof.
  open_run (fetchSubmissions env) st c st' log H.
  intros Hin Herr Hdata.
  assert (Hview : submissionsList (with_loadingSubmissions false
                                     (with_submissions R st))
                  = match R with
                    | [] => EmptyText (js "No submissions yet")
                    | _ :: _ => Items (map submissionItem R)
                    end).
  { unfold submissionsList. cbn. destruct R; reflexivity. }
  exec H; in_log Hin; injection Hin as <- <- <- <- <-;
    try congruence;
    match goal with
    | Hd : data _ = Some ?l |- _ =>
        rewrite Hdata in Hd; injection Hd as <-
    end;
    (split; [exact Hview|]);
    intros items Hitems;
    change (with_loadingSubmissions false
              (with_submissions R (with_loadingSubmissions true st)))
      with (with_loadingSubmissions false (with_submissions R st)) in Hitems;
    rewrite Hview in Hitems;
    (destruct R; [discriminate|]);
    injection Hitems as <-;
    cbn [map]; rewrite !map_map; repeat split.
Qed.

Lemma submissionsList_after_fetch_witness :
  let st := with_submissions [bob] initialState in
  let r : SupabaseResult (list Submission.t) :=
    {| data := Some [alice; bob; bob]; error := None |} in
  In (Call_select (js "form_submissions") (js "*") (js "created_at") false
        (Resolved r))
     (trace (fetchSubmissions env_ok) st)
  /\ (submissionsList (final (fetchSubmissions env_ok) st)
      = Items (map submissionItem [alice; bob; bob])
      /\ (forall items,
            submissionsList (final (fetchSubmissions env_ok) st) = Items items ->
            map item_key items = map Submission.id [alice; bob; bob]
            /\ map item_text items = map Submission.name [alice; bob; bob]
            /\ map item_source items
               = map Submission.image_url [alice; bob; bob])).
Proof.
  intros st r.
  assert (Hin : In (Call_select (js "form_submissions") (js "*")
                      (js "created_at") false (Resolved r))
                   (trace (fetchSubmissions env_ok) st))
    by by_evaluation.
  exact (conj Hin
           (submissionsList_after_fetch env_ok st _ _ _ _ r _
              Hin eq_refl eq_refl)).
Defined.

(** The empty list is shown as text, not as the indicator. *)
Example submissionsList_empty :
  submissionsList (final (fetchSubmissions
                            {| Date_now := 0;
                               fetch := fetch env_ok;
                               launchImageLibraryAsync :=
                                 launchImageLibraryAsync env_ok;
                               storage_upload := storage_upload env_ok;
                               storage_getPublicUrl := example_url;
                               from_insert := from_insert env_ok;
                               from_select_order := fun _ _ _ _ =>
                                 Resolved {| data := Some []; error := None |};
                               TypeError := TypeError env_ok |})
                     (with_submissions [bob] initialState))
  = EmptyText (js "No submissions yet").
Proof. reflexivity. Qed.

(* ===================================================================== *)
(** ** Further properties of [pickImage] and of the network listener *)
(* ===================================================================== *)

(** X17: when the picker resolves to a result that is not cancelled and
    has assets, [pickImage] stores the [uri] of the first asset as the
    image reference and changes nothing else; further assets are
    ignored, and the picker is the only collaborator called. *)
Theorem pickImage_takes_first_asset
  (env : Env) (st : State)
  (result : ImagePickerResult) (first : Asset) (others : list Asset) :
  launchImageLibraryAsync env = Resolved result ->
  canceled result = false ->
  assets result = Some (first :: others) ->
  run (pickImage env) st
  = (Normal tt,
     (with_image (Some (uri first)) st,
      [Call_launchImageLibraryAsync (Resolved result)])).
Proof.
  intros Hl Hc Ha.
  destruct (run (pickImage env) st) as [c [st' log]] eqn:H.
  exec H; try congruence.
  repeat f_equal; congruence.
Qed.

Lemma pickImage_takes_first_asset_witness :
  let second := {| uri := js "file:///cache/ImagePicker/other.png" |} in
  let result :=
    {| canceled := false; assets := Some [ {| uri := photo_uri |}; second ] |} in
  let env := example_env 0 None None result in
  launchImageLibraryAsync env = Resolved result
  /\ run (pickImage env) draft_alice
     = (Normal tt,
        (with_image (Some photo_uri) draft_alice,
         [Call_launchImageLibraryAsync (Resolved result)])).
Proof.
  intros second result env.
  exact (conj eq_refl
           (pickImage_takes_first_asset env draft_alice result
              {| uri := photo_uri |} [second] eq_refl eq_refl eq_refl)).
Defined.

(** X18: [pickImage] has no [catch]: when the picker rejects, or when it
    resolves to a result that is not cancelled but whose [assets] array
    is empty (reading [uri] of [assets[0]] throws), the promise of
    [pickImage] rejects, with the picker's error or the engine's
    [TypeError], and the state is untouched. *)
Theorem pickImage_rejects (env : Env) (st : State) :
  (forall e,
      launchImageLibraryAsync env = Rejected e ->
      run (pickImage env) st
      = (Throw e, (st, [Call_launchImageLibraryAsync (Rejected e)])))
  /\ (forall result,
        launchImageLibraryAsync env = Resolved result ->
        canceled result = false ->
        assets result = Some [] ->
        run (pickImage env) st
        = (Throw (TypeError env),
           (st, [Call_launchImageLibraryAsync (Resolved result)]))).
Proof.
  split.
  - intros e Hl.
    destruct (run (pickImage env) st) as [c [st' log]] eqn:H.
    exec H; try discriminate Hl.
    injection Hl as <-. reflexivity.
  - intros result Hl Hc Ha.
    destruct (run (pickImage env) st) as [c [st' log]] eqn:H.
    exec H; try discriminate Hl; injection Hl as <-;
      try congruence; reflexivity.
Qed.

Lemma pickImage_rejects_witness :
  let result := {| canceled := false; assets := Some [] |} in
  let env := example_env 0 None None result in
  launchImageLibraryAsync env = Resolved result
  /\ run (pickImage env) draft_alice
     = (Throw (TypeError env),
        (draft_alice, [Call_launchImageLibraryAsync (Resolved result)])).
Proof.
  intros result env.
  exact (conj eq_refl
           (proj2 (pickImage_rejects env draft_alice) result
              eq_refl eq_refl eq_refl)).
Defined.

(** X19: picking then submitting. After [pickImage] has stored a
    non-empty URI, a draft with a name that is not blank, submitted while
    connected, passes the three guards, and the first thing
    [handleSubmit] does is fetch that very URI. *)
Theorem pickImage_then_handleSubmit
  (env env' : Env) (st : State)
  (result : ImagePickerResult) (first : Asset) (others : list Asset) :
  launchImageLibraryAsync env = Resolved result ->
  canceled result = false ->
  assets result = Some (first :: others) ->
  uri first <> [] ->
  ~ whitespace_only (name st) ->
  isConnected st = true ->
  exists rest,
    trace (handleSubmit env') (final (pickImage env) st)
    = Call_fetch (uri first) (fetch env' (uri first)) :: rest.
Proof.
  intros Hl Hc Ha Hu Hn Hconn.
  assert (Hpick : final (pickImage env) st = with_image (Some (uri first)) st).
  { unfold final.
    destruct (run (pickImage env) st) as [c [st' log]] eqn:H.
    exec H; try congruence. cbn. repeat f_equal; congruence. }
  rewrite Hpick.
  rewrite whitespace_only_truthy in Hn.
  assert (Hname : Js.truthy (Js.trim (name st)) = true)
    by (destruct (Js.truthy (Js.trim (name st))); congruence).
  assert (Hnarrow : narrow (Some (uri first)) = Some (uri first))
    by (cbn; destruct (uri first); [contradiction|reflexivity]).
  unfold trace.
  destruct (run (handleSubmit env') (with_image (Some (uri first)) st))
    as [c [st' log]] eqn:H.
  cbn [fst snd].
  unfold run, handleSubmit, async, bind, getState, when in H.
  cbn [fst snd name image isConnected with_image] in H.
  rewrite Hname, Hnarrow, Hconn in H.
  exec H; eexists; reflexivity.
Qed.

Lemma pickImage_then_handleSubmit_witness :
  ~ whitespace_only (name (with_name (js "Alice") initialState))
  /\ exists rest,
       trace (handleSubmit env_too_big)
         (final (pickImage env_ok) (with_name (js "Alice") initialState))
       = Call_fetch photo_uri (fetch env_too_big photo_uri) :: rest.
Proof.
  assert (Hn : ~ whitespace_only (name (with_name (js "Alice") initialState)))
    by (vm_compute; discriminate).
  assert (Hu : uri {| uri := photo_uri |} <> [])
    by (vm_compute; discriminate).
  exact (conj Hn
           (pickImage_then_handleSubmit env_ok env_too_big
              (with_name (js "Alice") initialState)
              picked_photo {| uri := photo_uri |} []
              eq_refl eq_refl eq_refl Hu Hn eq_refl)).
Defined.

(** X20: once the network listener has seen an offline state, it has
    shown the connection-lost notice, the banner is displayed, and any
    submission, whatever the draft, ends at a guard: one [Error] alert
    with a validation message, no call to any collaborator, state
    unchanged. *)
Theorem netInfoListener_offline_blocks_submit (env : Env) (st : State) :
  let offline := final (netInfoListener false) st in
  trace (netInfoListener false) st = [connection_lost_alert]
  /\ offlineBanner offline = Some (js "You are offline")
  /\ exists text,
       run (handleSubmit env) offline
       = (Normal tt, (offline, [Alert_alert (js "Error") text]))
       /\ In text validation_messages.
Proof.
  cbn zeta.
  split; [reflexivity|]. split; [reflexivity|].
  change (final (netInfoListener false) st) with (with_isConnected false st).
  destruct (Js.truthy (Js.trim (name st))) eqn:Hn.
  - destruct (narrow (image st)) as [u|] eqn:Hi.
    + eexists. split.
      * apply handleSubmit_run_offline with u; [exact Hn | exact Hi | reflexivity].
      * unfold validation_messages. cbn. tauto.
    + eexists. split.
      * apply handleSubmit_run_no_image; [exact Hn | exact Hi].
      * unfold validation_messages. cbn. tauto.
  - eexists. split.
    + apply handleSubmit_run_blank_name. exact Hn.
    + unfold validation_messages. cbn. tauto.
Qed.

(** X21: an online state seen by the listener is stored without any
    notice, and undoes an offline one: for a state that was connected,
    going offline and back leaves the state, and with it every later
    submission, exactly as before. *)
Theorem netInfoListener_back_online (env : Env) (st : State) :
  isConnected st = true ->
  run (netInfoListener true) (final (netInfoListener false) st)
  = (Normal tt, (st, []))
  /\ run (handleSubmit env)
       (final (netInfoListener true) (final (netInfoListener false) st))
     = run (handleSubmit env) st.
Proof.
  intros Hc.
  assert (Hst : final (netInfoListener true) (final (netInfoListener false) st)
                = st).
  { destruct st as [n i u s l r c]. cbn in Hc. subst c. reflexivity. }
  split.
  - destruct st as [n i u s l r c]. cbn in Hc. subst c. reflexivity.
  - rewrite Hst. reflexivity.
Qed.

Lemma netInfoListener_back_online_witness :
  isConnected draft_alice = true
  /\ (run (netInfoListener true) (final (netInfoListener false) draft_alice)
      = (Normal tt, (draft_alice, []))
      /\ run (handleSubmit env_ok)
           (final (netInfoListener true)
              (final (netInfoListener false) draft_alice))
         = run (handleSubmit env_ok) draft_alice).
Proof.
  exact (conj eq_refl (netInfoListener_back_online env_ok draft_alice eq_refl)).
Defined.

(* ===================================================================== *)
(** ** Notices *)
(* ===================================================================== *)

Lemma message_or_nonempty (e : JsError) (fallback : jsstring) :
  fallback <> [] -> message_or e fallback <> [].
Proof.
  intros Hf. unfold message_or.
  destruct (message e) as [m|]; [|exact Hf].
  destruct m; cbn; [exact Hf | discriminate].
Qed.

Ltac nonempty_text :=
  first
    [ apply message_or_nonempty
    | idtac ];
  let F := fresh "F" in
  intros F; vm_compute in F; discriminate F.

(** X22: no alert of [handleSubmit] or [fetchSubmissions] is blank.
    Whatever the collaborators answer, even an error whose [message] is
    missing or empty, every alert shown has a non-empty title and a
    non-empty text: the [||] fallbacks cover the errors without
    message. *)
Theorem alerts_are_never_blank (env : Env) (st : State) (title text : jsstring) :
  In (Alert_alert title text) (trace (handleSubmit env) st)
  \/ In (Alert_alert title text) (trace (fetchSubmissions env) st) ->
  title <> [] /\ text <> [].
Proof.
  intros [Hin | Hin]; revert Hin.
  - open_run (handleSubmit env) st c st' log H. intros Hin.
    exec H; in_log Hin; injection Hin as <- <-; split; nonempty_text.
  - open_run (fetchSubmissions env) st c st' log H. intros Hin.
    exec H; in_log Hin; injection Hin as <- <-; split; nonempty_text.
Qed.

Lemma alerts_are_never_blank_witness :
  let env := example_env 2000000 (Some silent_error) None picked_photo in
  let text := js "Something went wrong while submitting your form" in
  (In (Alert_alert (js "Error") text) (trace (handleSubmit env) draft_alice)
   \/ In (Alert_alert (js "Error") text) (trace (fetchSubmissions env) draft_alice))
  /\ (js "Error" <> [] /\ text <> []).
Proof.
  intros env text.
  assert (Hin : In (Alert_alert (js "Error") text)
                   (trace (handleSubmit env) draft_alice)
                \/ In (Alert_alert (js "Error") text)
                      (trace (fetchSubmissions env) draft_alice))
    by (left; by_evaluation).
  exact (conj Hin (alerts_are_never_blank env draft_alice _ _ Hin)).
Defined.

(* ===================================================================== *)
(** ** The storage key *)
(* ===================================================================== *)

(** X23: the extension is always defined (the array that [split]
    returns is never empty, so [pop] never yields [undefined]), it never
    contains a dot, and it is the end of the URI. *)
Theorem fileExt_defined (image_uri : jsstring) :
  exists ext before,
    fileExt image_uri = Some ext
    /\ ~ In dot ext
    /\ image_uri = before ++ ext.
Proof.
  destruct (last_occurrence dot image_uri) as [Hno | (pre & suf & -> & Hsuf)].
  - exists image_uri, []. split; [apply fileExt_no_dot; exact Hno|].
    split; [exact Hno | reflexivity].
  - exists suf, (pre ++ [dot]).
    split; [apply fileExt_after_last_dot; exact Hsuf|].
    split; [exact Hsuf|]. rewrite <- app_assoc. reflexivity.
Qed.

(** X24: the storage key carries the extension of the image: splitting
    the key the way [fileExt] splits a URI gives back the extension of
    the image the key was made for. *)
Theorem fileExt_of_filePath (now : Z) (image_uri : jsstring) :
  fileExt (filePath now image_uri) = fileExt image_uri.
Proof.
  assert (Hcases : exists ext, fileExt image_uri = Some ext /\ ~ In dot ext).
  { destruct (last_occurrence dot image_uri) as [Hno | (pre & suf & -> & Hsuf)].
    - exists image_uri. split; [apply fileExt_no_dot; exact Hno | exact Hno].
    - exists suf. split; [apply fileExt_after_last_dot; exact Hsuf | exact Hsuf]. }
  destruct Hcases as (ext & Hext & Hno).
  unfold filePath. rewrite Hext. cbn [Js.splice].
  change (js ".") with [dot]. cbn [app].
  rewrite fileExt_after_last_dot by exact Hno. reflexivity.
Qed.

Lemma lit_injective (a b : string) : Js.lit a = Js.lit b -> a = b.
Proof.
  unfold Js.lit. intros H.
  rewrite <- (string_of_list_ascii_of_string a),
          <- (string_of_list_ascii_of_string b).
  f_equal.
  revert H. generalize (list_ascii_of_string a) (list_ascii_of_string b).
  intros la. induction la as [|x la IH]; intros [|y lb]; cbn;
    try discriminate; [reflexivity|].
  intros [= Hxy Hrest]. f_equal; [|apply IH; exact Hrest].
  rewrite <- (ascii_N_embedding x), <- (ascii_N_embedding y), Hxy.
  reflexivity.
Qed.

Lemma to_int_printable (n : Z) :
  Z.to_int n <> Decimal.Pos Decimal.Nil /\ Z.to_int n <> Decimal.Neg Decimal.Nil.
Proof.
  destruct n as [|p|p]; cbn; split; try discriminate;
    intros [= H]; exact (DecimalPos.Unsigned.to_uint_nonnil p H).
Qed.

(** Rendering a number in decimal loses nothing. *)
Lemma ofNumber_injective (n m : Z) : Js.ofNumber n = Js.ofNumber m -> n = m.
Proof.
  unfold Js.ofNumber. intros H. apply lit_injective in H.
  apply DecimalZ.to_int_inj.
  destruct (to_int_printable n) as [Hn1 Hn2].
  destruct (to_int_printable m) as [Hm1 Hm2].
  pose proof (NilZero.isi _ Hn1 Hn2) as En.
  pose proof (NilZero.isi _ Hm1 Hm2) as Em.
  rewrite H in En. rewrite En in Em. injection Em as Em. exact Em.
Qed.

Lemma digits_no_dot (d : Decimal.uint) :
  ~ In dot (Js.lit (NilEmpty.string_of_uint d)).
Proof.
  induction d; cbn; intros F;
    try (destruct F as [F | F]; [discriminate F | auto]); auto.
Qed.

(** The decimal rendering of a number holds digits and at most a sign. *)
Lemma ofNumber_no_dot (n : Z) : ~ In dot (Js.ofNumber n).
Proof.
  unfold Js.ofNumber.
  assert (Hu : forall d, ~ In dot (Js.lit (NilZero.string_of_uint d))).
  { intros d. destruct d; try apply digits_no_dot.
    cbn. intros [F | []]. discriminate F. }
  destruct (Z.to_int n) as [d | d]; cbn [NilZero.string_of_int].
  - apply Hu.
  - intros F. change (In dot (45%N :: Js.lit (NilZero.string_of_uint d))) in F.
    destruct F as [F | F]; [discriminate F | exact (Hu d F)].
Qed.

Lemma app_sep_injective (c : Js.char16) (l1 l2 r1 r2 : jsstring) :
  ~ In c l1 -> ~ In c l2 ->
  l1 ++ c :: r1 = l2 ++ c :: r2 -> l1 = l2 /\ r1 = r2.
Proof.
  revert l2. induction l1 as [|x l1 IH]; intros [|y l2] H1 H2 H; cbn in *.
  - injection H as H. auto.
  - injection H as Hc _. exfalso. apply H2. left. congruence.
  - injection H as Hc _. exfalso. apply H1. left. congruence.
  - injection H as Hxy H. destruct (IH l2) as [-> ->]; auto. subst. auto.
Qed.

(** X25: when two storage keys collide. Two submissions get the same key
    exactly when [Date.now()] gave the same millisecond and the two
    images have the same extension; the rest of the URI plays no part,
    and a different millisecond always gives a different key. *)
Theorem filePath_collision (now1 now2 : Z) (image1 image2 : jsstring) :
  filePath now1 image1 = filePath now2 image2
  <-> now1 = now2 /\ fileExt image1 = fileExt image2.
Proof.
  split.
  - unfold filePath. change (js ".") with [dot]. cbn [app]. intros H.
    apply app_sep_injective in H; try apply ofNumber_no_dot.
    destruct H as [Hn He]. split; [apply ofNumber_injective; exact Hn|].
    destruct (pop_split_some dot image1) as [e1 H1].
    destruct (pop_split_some dot image2) as [e2 H2].
    unfold fileExt in *. rewrite H1, H2 in *. cbn in He. congruence.
  - intros [-> He]. unfold filePath. rewrite He. reflexivity.
Qed.

Lemma filePath_collision_witness :
  (1700000000000 = 1700000000000
   /\ fileExt (js "file:///cache/a.jpg") = fileExt (js "file:///other/b.c.jpg"))
  /\ filePath 1700000000000 (js "file:///cache/a.jpg")
     = filePath 1700000000000 (js "file:///other/b.c.jpg").
Proof.
  assert (H : 1700000000000 = 1700000000000
              /\ fileExt (js "file:///cache/a.jpg")
                 = fileExt (js "file:///other/b.c.jpg"))
    by (split; reflexivity).
  exact (conj H (proj2 (filePath_collision _ _ _ _) H)).
Defined.

(** Two different photos taken to the store in the same millisecond. *)
Example filePath_same_millisecond :
  filePath 1700000000000 (js "file:///cache/a.jpg")
  = filePath 1700000000000 (js "file:///cache/b.jpg").
Proof. reflexivity. Qed.
